(** * debug-toolkit: execution gateway and menu navigation

    A shallow embedding of [monitoring/debug-toolkit.py].

    Python [str] values are modelled as [string] (one [ascii] per code
    point, so the model covers the code points 0 to 255, and the string
    methods below are those of Python on that range); [Optional[str]] is
    [option string]; the [(int, str)] pair returned by [run_command] is
    [Z * string].  What lies outside the script (the child processes, the
    operator's keyboard) is an explicit parameter of the functions that
    touch it. *)

From Stdlib Require Import String Ascii List ZArith QArith Bool Lia Arith.
Import ListNotations.

Local Close Scope Q_scope.
Local Open Scope nat_scope.
Local Open Scope list_scope.
Local Open Scope string_scope.

(** ** Python string operations used by the script *)

Module Py.

(** [str.isspace] on one code point: tab, newline, vertical tab, form
    feed, carriage return, the four separators 28..31, space, next line
    (133) and no-break space (160). *)
Definition isspace (c : ascii) : bool :=
  let n := nat_of_ascii c in
  ((9 <=? n)%nat && (n <=? 13)%nat) || ((28 <=? n)%nat && (n <=? 32)%nat)
  || (n =? 133)%nat || (n =? 160)%nat.

Fixpoint lstrip (s : string) : string :=
  match s with
  | EmptyString => EmptyString
  | String c r => if isspace c then lstrip r else s
  end.

(** Drops trailing white space: a character is kept when something
    that is kept follows it, or when it is not white space itself. *)
Fixpoint rstrip (s : string) : string :=
  match s with
  | EmptyString => EmptyString
  | String c r =>
      match rstrip r with
      | EmptyString => if isspace c then EmptyString else String c EmptyString
      | r' => String c r'
      end
  end.

(** [s.strip()] *)
Definition strip (s : string) : string := rstrip (lstrip s).

(** [str.lower] on one code point: the letters A to Z and the accented
    capitals 192..222 (the multiplication sign 215 apart) move up by 32. *)
Definition lower_char (c : ascii) : ascii :=
  let n := nat_of_ascii c in
  if ((65 <=? n)%nat && (n <=? 90)%nat)
     || ((192 <=? n)%nat && (n <=? 222)%nat && negb (n =? 215)%nat)
  then ascii_of_nat (n + 32) else c.

(** [s.lower()] *)
Fixpoint lower (s : string) : string :=
  match s with
  | EmptyString => EmptyString
  | String c r => String (lower_char c) (lower r)
  end.

(** [needle in s] *)
Fixpoint contains (needle s : string) : bool :=
  if prefix needle s then true
  else match s with
       | EmptyString => false
       | String _ r => contains needle r
       end.

(** [s.split(sep)] for a one-character separator. *)
Fixpoint split (sep : ascii) (s : string) : list string :=
  match s with
  | EmptyString => [EmptyString]
  | String c r =>
      if Ascii.eqb c sep then EmptyString :: split sep r
      else match split sep r with
           | h :: t => String c h :: t
           | [] => [String c EmptyString]
           end
  end.

(** [str.isdigit] on one code point: 0 to 9 and the superscripts two
    (178), three (179) and one (185). *)
Definition is_digit (c : ascii) : bool :=
  let n := nat_of_ascii c in
  ((48 <=? n)%nat && (n <=? 57)%nat)
  || (n =? 178)%nat || (n =? 179)%nat || (n =? 185)%nat.

Fixpoint all_digits (s : string) : bool :=
  match s with
  | EmptyString => true
  | String c r => is_digit c && all_digits r
  end.

(** [s.isdigit()]: non-empty and made of digits only. *)
Definition isdigit (s : string) : bool :=
  match s with
  | EmptyString => false
  | _ => all_digits s
  end.

(** [c * n] for a one-character string [c]. *)
Fixpoint repeat_char (c : ascii) (n : nat) : string :=
  match n with
  | O => EmptyString
  | S k => String c (repeat_char c k)
  end.

(** [s.center(width)]: CPython puts [pad/2 + (pad & width & 1)] blanks
    on the left and the rest on the right. *)
Definition center (s : string) (width : nat) : string :=
  let len := String.length s in
  if (width <=? len)%nat then s
  else
    let pad := width - len in
    let left := pad / 2 + (Nat.land (Nat.land pad width) 1) in
    repeat_char " " left ++ s ++ repeat_char " " (pad - left).

(** Truth value of a [str]: empty is false. *)
Definition truthy (s : string) : bool :=
  match s with
  | EmptyString => false
  | _ => true
  end.

(** Truth value of an [Optional[str]]: [None] and [""] are false. *)
Definition truthy_opt (o : option string) : bool :=
  match o with
  | None => false
  | Some s => truthy s
  end.

(** [f"{o}"] for an [Optional[str]]. *)
Definition format_opt (o : option string) : string :=
  match o with
  | None => "None"
  | Some s => s
  end.

(** [a or b] on strings. *)
Definition or_else (a b : string) : string := if truthy a then a else b.

(** A [dict] with string keys, as built by a comprehension: a later
    binding of a key replaces the earlier one. *)
Definition dict := list (string * string).

Fixpoint dict_set (k v : string) (d : dict) : dict :=
  match d with
  | [] => [(k, v)]
  | (k', v') :: r =>
      if String.eqb k' k then (k, v) :: r else (k', v') :: dict_set k v r
  end.

(** [d.get(k, default)] *)
Fixpoint dict_get (k : string) (default : string) (d : dict) : string :=
  match d with
  | [] => default
  | (k', v) :: r => if String.eqb k' k then v else dict_get k default r
  end.

(** [l[i]] on a list of strings; out of range stands for [IndexError],
    which the callers below never reach. *)
Definition item (l : list string) (i : nat) : string := nth i l EmptyString.

End Py.

(** ** Exceptions and outcomes *)

(** The exception classes the script can meet.  [TimeoutExpired],
    [EOFError] and [OtherException] derive from [Exception];
    [KeyboardInterrupt] and [OtherBaseException] (such as [SystemExit])
    derive from [BaseException] only. *)
Inductive exn_class : Type :=
| TimeoutExpired
| EOFError
| OtherException
| KeyboardInterrupt
| OtherBaseException.

(** An exception object: its class and the text [str(e)] gives. *)
Record exn : Type := { class : exn_class; str : string }.

(** [isinstance(e, Exception)] *)
Definition is_Exception (e : exn) : bool :=
  match class e with
  | TimeoutExpired | EOFError | OtherException => true
  | KeyboardInterrupt | OtherBaseException => false
  end.

(** What a call does: return a value, raise, or never come back. *)
Inductive outcome (A : Type) : Type :=
| Return (a : A)
| Raise (e : exn)
| Hang.
Arguments Return {A} a.
Arguments Raise {A} e.
Arguments Hang {A}.

(** ** Child processes *)

Inductive channel : Type := Stdout | Stderr.

Definition channel_eqb (a b : channel) : bool :=
  match a, b with
  | Stdout, Stdout | Stderr, Stderr => true
  | _, _ => false
  end.

(** What the process started by [/bin/sh -c cmdline] does when its output
    is captured: it exits after [elapsed] time units with a return code,
    having written chunks to its two output channels in the order given;
    or it never exits on its own; or running it fails with an exception
    (the shell cannot be started, the output cannot be decoded, the
    operator interrupts). *)
Inductive process : Type :=
| Exits (elapsed : Q) (returncode : Z) (writes : list (channel * string))
| Runs_forever
| Fails (e : exn).

(** The text that went to one channel. *)
Fixpoint written (ch : channel) (ws : list (channel * string)) : string :=
  match ws with
  | [] => EmptyString
  | (c, s) :: r => if channel_eqb c ch then s ++ written ch r else written ch r
  end.

(** The text in the order the process produced it, both channels. *)
Fixpoint interleaved (ws : list (channel * string)) : string :=
  match ws with
  | [] => EmptyString
  | (_, s) :: r => s ++ interleaved r
  end.

Record CompletedProcess : Type := {
  returncode : Z;
  stdout : string;
  stderr : string
}.

(** [data.replace("\r\n", "\n")]: every carriage return that a line feed
    follows is dropped, scanning from the left. *)
Fixpoint replace_crlf (s : string) : string :=
  match s with
  | EmptyString => EmptyString
  | String c r =>
      match r with
      | String c' r' =>
          if Ascii.eqb c (ascii_of_nat 13) && Ascii.eqb c' (ascii_of_nat 10)
          then String (ascii_of_nat 10) (replace_crlf r')
          else String c (replace_crlf r)
      | EmptyString => String c EmptyString
      end
  end.

(** [data.replace("\r", "\n")] *)
Fixpoint replace_cr (s : string) : string :=
  match s with
  | EmptyString => EmptyString
  | String c r =>
      String (if Ascii.eqb c (ascii_of_nat 13) then ascii_of_nat 10 else c)
             (replace_cr r)
  end.

(** What [text=True] does to the text read from a pipe:
    [data.replace("\r\n", "\n").replace("\r", "\n")]. *)
Definition translate_newlines (data : string) : string :=
  replace_cr (replace_crlf data).

(** [subprocess.run(cmdline, shell=True, capture_output=True, text=True,
    timeout=t)]: each channel is collected through a pipe of its own and
    read as text, with its line ends translated; a child still running
    when the timeout expires is killed and [TimeoutExpired] is raised. *)
Definition subprocess_run_captured (p : process) (timeout : Q)
  : outcome CompletedProcess :=
  match p with
  | Exits elapsed rc ws =>
      if Qle_bool elapsed timeout
      then Return {| returncode := rc;
                     stdout := translate_newlines (written Stdout ws);
                     stderr := translate_newlines (written Stderr ws) |}
      else Raise {| class := TimeoutExpired; str := "timed out" |}
  | Runs_forever => Raise {| class := TimeoutExpired; str := "timed out" |}
  | Fails e => Raise e
  end.

(** What the process started by [subprocess.run(cmdline, shell=True)] does
    when it is given the terminal: it ends after reading [consumed] lines
    of the operator's input, or the call raises after that many lines, or
    it never ends. *)
Inductive session : Type :=
| Ends (consumed : nat)
| Breaks (consumed : nat) (e : exn)
| Never_ends.

(** ** The execution gateway *)

Section Gateway.

(** The system the script runs on: what each command line does. *)
Variable spawn : string -> process.
Variable terminal : string -> session.

(** The command line handed to the shell by [run_command]. *)
Definition captured_cmdline (cmd : string) (remote_host : option string)
  : string :=
  if Py.truthy_opt remote_host
  then "ssh -o ConnectTimeout=10 -o BatchMode=yes "
         ++ Py.format_opt remote_host ++ " '" ++ cmd ++ "'"
  else cmd.

(** The command line handed to the shell by [run_interactive]. *)
Definition interactive_cmdline (cmd : string) (remote_host : option string)
  : string :=
  if Py.truthy_opt remote_host
  then "ssh -t " ++ Py.format_opt remote_host ++ " '" ++ cmd ++ "'"
  else cmd.

(** [run_command(cmd, remote_host)] *)
Definition run_command (cmd : string) (remote_host : option string)
  : outcome (Z * string) :=
  let cmd := captured_cmdline cmd remote_host in
  match subprocess_run_captured (spawn cmd) 60%Q with
  | Return result => Return (returncode result, stdout result ++ stderr result)
  | Raise e =>
      match class e with
      | TimeoutExpired => Return (1%Z, "Command timed out")
      | _ => if is_Exception e then Return (1%Z, str e) else Raise e
      end
  | Hang => Hang
  end.

(** [run_interactive(cmd, remote_host)]: the number of input lines the
    child took from the operator, and how the call ended. *)
Definition run_interactive (cmd : string) (remote_host : option string)
  : nat * outcome unit :=
  let cmd := interactive_cmdline cmd remote_host in
  match terminal cmd with
  | Ends n => (n, Return tt)
  | Breaks n e =>
      match class e with
      | KeyboardInterrupt => (n, Return tt)
      | _ => (n, Raise e)
      end
  | Never_ends => (0, Hang)
  end.

End Gateway.

(** ** Terminal decoration *)

Definition ESC : string := String (ascii_of_nat 27) EmptyString.
Definition LF : string := String (ascii_of_nat 10) EmptyString.
Definition DQ : string := String (ascii_of_nat 34) EmptyString.
Definition BACKSLASH : string := String (ascii_of_nat 92) EmptyString.

Module Colors.
Definition RED : string := ESC ++ "[0;31m".
Definition GREEN : string := ESC ++ "[0;32m".
Definition YELLOW : string := ESC ++ "[0;33m".
Definition BLUE : string := ESC ++ "[0;34m".
Definition CYAN : string := ESC ++ "[0;36m".
Definition BOLD : string := ESC ++ "[1m".
Definition RESET : string := ESC ++ "[0m".
End Colors.

(** [colored(text, color)] *)
Definition colored (text color : string) : string :=
  color ++ text ++ Colors.RESET.

(** ** The console: state, events and the monad of its methods *)

(** The fields of a [DebugToolkit] object. *)
Record DebugToolkit : Type := {
  remote_host : option string;
  namespace : string
}.

(** The object [self], the lines the operator has yet to type, and the
    number of child processes started so far. *)
Record state : Type := {
  self : DebugToolkit;
  stdin : list string;
  clock : nat
}.

(** What the console does that can be seen from outside: a line printed,
    a prompt shown together with the line the operator answered (if
    any), a captured execution with its result, an interactive one. *)
Inductive event : Type :=
| Print (s : string)
| Prompt (s : string) (answer : option string)
| Captured (cmd : string) (host : option string) (r : outcome (Z * string))
| Interactive (cmd : string) (host : option string).

(** A run of a method from a state: the events in order, how it ended and
    the state it left. *)
Record run (A : Type) : Type := {
  events : list event;
  value : outcome A;
  final : state
}.
Arguments events {A} r.
Arguments value {A} r.
Arguments final {A} r.

Definition M (A : Type) : Type := state -> run A.

Definition ret {A} (a : A) : M A :=
  fun st => {| events := []; value := Return a; final := st |}.

Definition bind {A B} (m : M A) (f : A -> M B) : M B :=
  fun st =>
    let r := m st in
    match value r with
    | Return a =>
        let r' := f a (final r) in
        {| events := events r ++ events r';
           value := value r';
           final := final r' |}
    | Raise e => {| events := events r; value := Raise e; final := final r |}
    | Hang => {| events := events r; value := Hang; final := final r |}
    end.

(** A run with some events put in front of it. *)
Definition emit {A} (evs : list event) (r : run A) : run A :=
  {| events := evs ++ events r; value := value r; final := final r |}.

Notation "x <- m ;; k" := (bind m (fun x => k))
  (at level 61, m at next level, right associativity).
Notation "' pat <- m ;; k" := (bind m (fun x => match x with pat => k end))
  (at level 61, pat pattern, m at next level, right associativity).
Notation "m ;; k" := (bind m (fun _ => k))
  (at level 61, right associativity).

(** [for x in xs: body(x)] *)
Fixpoint for_each {A} (xs : list A) (body : A -> M unit) : M unit :=
  match xs with
  | [] => ret tt
  | x :: r => body x ;; for_each r body
  end.

(** The menus of the console and what one pass through a menu loop
    decides. *)
Inductive menu : Type :=
| MainMenu
| NetworkMenu
| ProcessMenu
| LogMenu
| ResourceMenu
| K8sMenu.

Inductive control : Type :=
| Continue
| Break
| Call (m : menu).

(** The command-line options as given: [-r HOST] and [-n NS]. *)
Record argv : Type := {
  opt_remote : option string;
  opt_namespace : option string
}.

(** The parsed arguments: [--namespace] has [default="default"]. *)
Record args : Type := {
  remote : option string;
  namespace_arg : string
}.

Definition parse_args (a : argv) : args :=
  {| remote := opt_remote a;
     namespace_arg := match opt_namespace a with
                      | Some ns => ns
                      | None => "default"
                      end |}.

(** [DebugToolkit(remote_host=..., namespace=...)] *)
Definition DebugToolkit_init (remote_host : option string) (namespace : string)
  : DebugToolkit :=
  {| remote_host := remote_host; namespace := namespace |}.

(** How the process ends. *)
Inductive exit : Type :=
| Exited (code : Z)
| Uncaught (e : exn)
| Stuck
| Still_running (stack : list menu).

Section Console.

(** The world outside: what the [n]-th child process does, by the
    command line it is started with. *)
Variable spawn : nat -> string -> process.
Variable terminal : nat -> string -> session.

(** [print(s)] *)
Definition print (s : string) : M unit :=
  fun st => {| events := [Print s]; value := Return tt; final := st |}.

(** [input(prompt)]: the next line typed, [EOFError] when there is
    none. *)
Definition input (prompt : string) : M string :=
  fun st =>
    match stdin st with
    | [] =>
        {| events := [Prompt prompt None];
           value := Raise {| class := EOFError;
                             str := "EOF when reading a line" |};
           final := st |}
    | line :: rest =>
        {| events := [Prompt prompt (Some line)];
           value := Return line;
           final := {| self := self st; stdin := rest; clock := clock st |} |}
    end.

(** [self.namespace] *)
Definition get_namespace : M string :=
  fun st =>
    {| events := []; value := Return (namespace (self st)); final := st |}.

(** [self.namespace = ns] *)
Definition set_namespace (ns : string) : M unit :=
  fun st =>
    {| events := [];
       value := Return tt;
       final := {| self := {| remote_host := remote_host (self st);
                              namespace := ns |};
                   stdin := stdin st;
                   clock := clock st |} |}.

(** [self.remote_host] *)
Definition get_remote_host : M (option string) :=
  fun st =>
    {| events := []; value := Return (remote_host (self st)); final := st |}.

(** [DebugToolkit.run_cmd] *)
Definition run_cmd (cmd : string) : M (Z * string) :=
  fun st =>
    let host := remote_host (self st) in
    let r := run_command (spawn (clock st)) cmd host in
    {| events := [Captured cmd host r];
       value := r;
       final := {| self := self st;
                   stdin := stdin st;
                   clock := S (clock st) |} |}.

(** [DebugToolkit.run_interactive_cmd] *)
Definition run_interactive_cmd (cmd : string) : M unit :=
  fun st =>
    let host := remote_host (self st) in
    let r := run_interactive (terminal (clock st)) cmd host in
    {| events := [Interactive cmd host];
       value := snd r;
       final := {| self := self st;
                   stdin := skipn (fst r) (stdin st);
                   clock := S (clock st) |} |}.

(** [print_header(title)] *)
Definition print_header (title : string) : M unit :=
  let width := 50 in
  print "" ;;
  print (colored (Py.repeat_char "=" width) Colors.CYAN) ;;
  print (colored (Py.center title width) Colors.BOLD) ;;
  print (colored (Py.repeat_char "=" width) Colors.CYAN) ;;
  print "".

(** [print_section(title)] *)
Definition print_section (title : string) : M unit :=
  print "" ;;
  print (colored ("--- " ++ title ++ " ---") Colors.BOLD) ;;
  print "".

(** *** Network debugging *)

Definition ping_test : M unit :=
  target <- input "Target host/IP: " ;;
  let target := Py.strip target in
  count <- input "Ping count [5]: " ;;
  let count := Py.or_else (Py.strip count) "5" in
  '(code, output) <- run_cmd ("ping -c " ++ count ++ " " ++ target) ;;
  print output.

Definition port_scan : M unit :=
  target <- input "Target host: " ;;
  let target := Py.strip target in
  ports <- input "Ports (comma-separated or range, e.g., 22,80,443 or 1-1000): " ;;
  let ports := Py.strip ports in
  if Py.contains "-" ports then
    print "Scanning port range..." ;;
    '(code, output) <- run_cmd ("nmap -p " ++ ports ++ " " ++ target
                                  ++ " 2>/dev/null || echo 'nmap not installed'") ;;
    ret tt
  else
    for_each (Py.split "," ports) (fun port =>
      let port := Py.strip port in
      '(code, output) <- run_cmd ("nc -zv -w2 " ++ target ++ " " ++ port ++ " 2>&1") ;;
      let status := if Z.eqb code 0
                    then colored "OPEN" Colors.GREEN
                    else colored "CLOSED" Colors.RED in
      print ("  Port " ++ port ++ ": " ++ status)).

Definition dns_test : M unit :=
  target <- input "Hostname to resolve: " ;;
  let target := Py.strip target in
  print (LF ++ "Using system resolver:") ;;
  '(code, output) <- run_cmd ("host " ++ target) ;;
  print output ;;
  print (LF ++ "Using dig:") ;;
  '(code, output) <- run_cmd ("dig +short " ++ target) ;;
  print (Py.or_else output "No results").

Definition traceroute : M unit :=
  target <- input "Target host: " ;;
  let target := Py.strip target in
  print "Running traceroute (this may take a moment)..." ;;
  run_interactive_cmd ("traceroute -n -m 15 " ++ target
                         ++ " 2>/dev/null || tracepath " ++ target).

Definition show_connections : M unit :=
  print (LF ++ "Active connections:") ;;
  '(code, output) <- run_cmd "ss -tunapl 2>/dev/null | head -50" ;;
  print output.

Definition interface_stats : M unit :=
  print (LF ++ "Interface statistics:") ;;
  '(code, output) <- run_cmd "ip -s link" ;;
  print output.

Definition tcpdump_capture : M unit :=
  interface <- input "Interface [any]: " ;;
  let interface := Py.or_else (Py.strip interface) "any" in
  port <- input "Port filter (optional): " ;;
  let port := Py.strip port in
  duration <- input "Duration in seconds [10]: " ;;
  let duration := Py.or_else (Py.strip duration) "10" in
  let port_filter := if Py.truthy port then "port " ++ port else "" in
  print (LF ++ "Capturing for " ++ duration ++ " seconds... (Ctrl+C to stop)") ;;
  print "Note: Requires root privileges" ;;
  run_interactive_cmd
    ("timeout " ++ duration ++ " tcpdump -i " ++ interface ++ " " ++ port_filter
       ++ " -nn 2>/dev/null || echo 'tcpdump requires root'").

(** *** Process debugging *)

Definition top_by_cpu : M unit :=
  print (LF ++ "Top 15 processes by CPU:") ;;
  '(code, output) <- run_cmd "ps aux --sort=-%cpu | head -16" ;;
  print output.

Definition top_by_memory : M unit :=
  print (LF ++ "Top 15 processes by memory:") ;;
  '(code, output) <- run_cmd "ps aux --sort=-%mem | head -16" ;;
  print output.

Definition find_process : M unit :=
  name <- input "Process name pattern: " ;;
  let name := Py.strip name in
  '(code, output) <- run_cmd ("ps aux | grep -i '" ++ name ++ "' | grep -v grep") ;;
  print (Py.or_else output "No matching processes").

Definition strace_process : M unit :=
  pid <- input "Process ID: " ;;
  let pid := Py.strip pid in
  duration <- input "Duration in seconds [5]: " ;;
  let duration := Py.or_else (Py.strip duration) "5" in
  print (LF ++ "Tracing PID " ++ pid ++ " for " ++ duration ++ " seconds...") ;;
  print "Note: Requires root privileges" ;;
  run_interactive_cmd ("timeout " ++ duration ++ " strace -p " ++ pid
                         ++ " 2>&1 | head -100").

Definition open_files : M unit :=
  pid_or_name <- input "Process ID or name: " ;;
  let pid_or_name := Py.strip pid_or_name in
  '(code, output) <-
    (if Py.isdigit pid_or_name
     then run_cmd ("ls -la /proc/" ++ pid_or_name ++ "/fd 2>/dev/null | head -50")
     else run_cmd ("lsof -c " ++ pid_or_name ++ " 2>/dev/null | head -50")) ;;
  print (Py.or_else output "No results (may require root)").

Definition thread_analysis : M unit :=
  pid <- input "Process ID: " ;;
  let pid := Py.strip pid in
  '(code, output) <- run_cmd ("ps -T -p " ++ pid) ;;
  print output.

Definition zombie_processes : M unit :=
  '(code, output) <- run_cmd "ps aux | awk '$8 ~ /Z/ {print}'" ;;
  if Py.truthy output then
    print (LF ++ "Zombie processes found:") ;;
    print output
  else
    print (colored (LF ++ "No zombie processes") Colors.GREEN).

(** *** Log analysis *)

Definition journalctl_menu : M unit :=
  print (LF ++ "  1) Last 100 lines") ;;
  print "  2) Since 1 hour ago" ;;
  print "  3) Since boot" ;;
  print "  4) Follow (live)" ;;
  print "  5) Specific unit" ;;
  choice <- input "Choice: " ;;
  let choice := Py.strip choice in
  if String.eqb choice "1" then
    run_interactive_cmd "journalctl -n 100 --no-pager"
  else if String.eqb choice "2" then
    run_interactive_cmd "journalctl --since '1 hour ago' --no-pager | tail -200"
  else if String.eqb choice "3" then
    run_interactive_cmd "journalctl -b --no-pager | tail -200"
  else if String.eqb choice "4" then
    run_interactive_cmd "journalctl -f"
  else if String.eqb choice "5" then
    unit <- input "Unit name: " ;;
    let unit := Py.strip unit in
    run_interactive_cmd ("journalctl -u " ++ unit ++ " -n 100 --no-pager")
  else ret tt.

Definition auth_logs : M unit :=
  '(code, output) <- run_cmd
    "tail -100 /var/log/auth.log 2>/dev/null || tail -100 /var/log/secure 2>/dev/null" ;;
  print (Py.or_else output "Auth log not found").

Definition dmesg_logs : M unit :=
  print (LF ++ "  1) All messages") ;;
  print "  2) Errors only" ;;
  print "  3) Hardware messages" ;;
  choice <- input "Choice: " ;;
  let choice := Py.strip choice in
  captured <-
    (if String.eqb choice "1" then
       r <- run_cmd "dmesg -T 2>/dev/null | tail -100" ;; ret (Some r)
     else if String.eqb choice "2" then
       r <- run_cmd "dmesg -T --level=err,crit,alert,emerg 2>/dev/null" ;;
       ret (Some r)
     else if String.eqb choice "3" then
       r <- run_cmd
         "dmesg -T 2>/dev/null | grep -iE 'disk|memory|cpu|hardware|error'" ;;
       ret (Some r)
     else ret None) ;;
  match captured with
  | None => ret tt
  | Some (code, output) => print output
  end.

Definition search_logs : M unit :=
  pattern <- input "Search pattern: " ;;
  let pattern := Py.strip pattern in
  since <- input "Since (e.g., '1 hour ago', '2024-01-01') [1 hour ago]: " ;;
  let since := Py.or_else (Py.strip since) "1 hour ago" in
  '(code, output) <- run_cmd ("journalctl --since '" ++ since
                                ++ "' --no-pager | grep -i '" ++ pattern
                                ++ "' | tail -100") ;;
  print (Py.or_else output "No matches found").

Definition failed_services : M unit :=
  '(code, output) <- run_cmd "systemctl --failed --no-pager" ;;
  print output.

Definition recent_errors : M unit :=
  '(code, output) <- run_cmd
    "journalctl -p err --since '1 hour ago' --no-pager | tail -50" ;;
  print (Py.or_else output "No errors in the last hour").

(** *** Resource analysis *)

Definition memory_details : M unit :=
  print (LF ++ "Memory Summary:") ;;
  '(code, output) <- run_cmd "free -h" ;;
  print output ;;
  print (LF ++ "Top memory consumers:") ;;
  '(code, output) <- run_cmd "ps aux --sort=-%mem | head -10" ;;
  print output.

Definition disk_usage : M unit :=
  print (LF ++ "Filesystem usage:") ;;
  '(code, output) <- run_cmd "df -h" ;;
  print output ;;
  print (LF ++ "Largest directories in /:") ;;
  '(code, output) <- run_cmd "du -sh /* 2>/dev/null | sort -rh | head -10" ;;
  print output.

(** The comprehension
    [{l.split(':')[0].strip(): l.split(':')[1].strip()
      for l in output.split('\n') if ':' in l}]. *)
Definition meminfo_lines (output : string) : Py.dict :=
  fold_left
    (fun d l =>
       if Py.contains ":" l
       then Py.dict_set (Py.strip (Py.item (Py.split ":" l) 0))
                        (Py.strip (Py.item (Py.split ":" l) 1)) d
       else d)
    (Py.split (ascii_of_nat 10) output) [].

Definition memory_pressure : M unit :=
  '(code, output) <- run_cmd "cat /proc/meminfo" ;;
  let lines := meminfo_lines output in
  print (LF ++ "Memory Pressure Analysis:") ;;
  print ("  MemTotal:     " ++ Py.dict_get "MemTotal" "N/A" lines) ;;
  print ("  MemFree:      " ++ Py.dict_get "MemFree" "N/A" lines) ;;
  print ("  MemAvailable: " ++ Py.dict_get "MemAvailable" "N/A" lines) ;;
  print ("  Buffers:      " ++ Py.dict_get "Buffers" "N/A" lines) ;;
  print ("  Cached:       " ++ Py.dict_get "Cached" "N/A" lines) ;;
  print ("  SwapTotal:    " ++ Py.dict_get "SwapTotal" "N/A" lines) ;;
  print ("  SwapFree:     " ++ Py.dict_get "SwapFree" "N/A" lines).

Definition cpu_info : M unit :=
  '(code, output) <- run_cmd "lscpu" ;;
  print output.

Definition io_stats : M unit :=
  '(code, output) <- run_cmd "iostat -x 1 3 2>/dev/null || echo 'iostat not installed'" ;;
  print output.

(** *** Kubernetes debugging *)

Definition k8s_pod_status : M unit :=
  ns <- get_namespace ;;
  '(code, output) <- run_cmd ("kubectl get pods -n " ++ ns ++ " -o wide") ;;
  print output.

Definition k8s_logs : M unit :=
  ns <- get_namespace ;;
  '(code, output) <- run_cmd ("kubectl get pods -n " ++ ns ++ " --no-headers") ;;
  print "Available pods:" ;;
  print output ;;
  pod <- input (LF ++ "Pod name: ") ;;
  let pod := Py.strip pod in
  container <- input "Container (optional): " ;;
  let container := Py.strip container in
  let container_flag := if Py.truthy container then "-c " ++ container else "" in
  print (LF ++ "  1) Last 100 lines") ;;
  print "  2) Follow" ;;
  print "  3) Previous container" ;;
  choice <- input "Choice: " ;;
  let choice := Py.strip choice in
  if String.eqb choice "1" then
    ns <- get_namespace ;;
    '(code, output) <- run_cmd ("kubectl logs " ++ pod ++ " -n " ++ ns ++ " "
                                  ++ container_flag ++ " --tail=100") ;;
    print output
  else if String.eqb choice "2" then
    ns <- get_namespace ;;
    run_interactive_cmd ("kubectl logs " ++ pod ++ " -n " ++ ns ++ " "
                           ++ container_flag ++ " -f")
  else if String.eqb choice "3" then
    ns <- get_namespace ;;
    '(code, output) <- run_cmd ("kubectl logs " ++ pod ++ " -n " ++ ns ++ " "
                                  ++ container_flag ++ " --previous --tail=100") ;;
    print output
  else ret tt.

Definition k8s_exec : M unit :=
  pod <- input "Pod name: " ;;
  let pod := Py.strip pod in
  shell <- input "Shell [/bin/sh]: " ;;
  let shell := Py.or_else (Py.strip shell) "/bin/sh" in
  ns <- get_namespace ;;
  run_interactive_cmd ("kubectl exec -it " ++ pod ++ " -n " ++ ns ++ " -- " ++ shell).

Definition k8s_describe : M unit :=
  resource <- input "Resource type [pod]: " ;;
  let resource := Py.or_else (Py.strip resource) "pod" in
  name <- input "Resource name: " ;;
  let name := Py.strip name in
  ns <- get_namespace ;;
  run_interactive_cmd ("kubectl describe " ++ resource ++ " " ++ name
                         ++ " -n " ++ ns ++ " | less").

Definition k8s_port_forward : M unit :=
  pod <- input "Pod name: " ;;
  let pod := Py.strip pod in
  ports <- input "Ports (local:remote, e.g., 8080:80): " ;;
  let ports := Py.strip ports in
  print "Port forwarding... Press Ctrl+C to stop" ;;
  ns <- get_namespace ;;
  run_interactive_cmd ("kubectl port-forward " ++ pod ++ " -n " ++ ns ++ " " ++ ports).

Definition k8s_events : M unit :=
  ns <- get_namespace ;;
  '(code, output) <- run_cmd ("kubectl get events -n " ++ ns
                                ++ " --sort-by='.lastTimestamp' | tail -30") ;;
  print output.

Definition k8s_nodes : M unit :=
  '(code, output) <- run_cmd "kubectl get nodes -o wide" ;;
  print output ;;
  print (LF ++ "Node conditions:") ;;
  '(code, output) <- run_cmd
    ("kubectl get nodes -o jsonpath='{range .items[*]}{.metadata.name}: "
       ++ "{.status.conditions[-1].type}={.status.conditions[-1].status}{"
       ++ DQ ++ BACKSLASH ++ "n" ++ DQ ++ "}{end}'") ;;
  print output.

Definition change_namespace : M unit :=
  '(code, output) <- run_cmd "kubectl get ns --no-headers | awk '{print $1}'" ;;
  print "Available namespaces:" ;;
  print output ;;
  ns <- input (LF ++ "New namespace: ") ;;
  let ns := Py.strip ns in
  set_namespace ns ;;
  print (colored ("Switched to namespace: " ++ ns) Colors.GREEN).

(** *** The menus

    Every menu method is a [while True] loop around one screen.  A
    screen is modelled by one pass through the loop body, which says
    how the loop goes on: with the next pass, by leaving the loop
    ([break], which returns to the caller), or by calling the method of
    another menu. *)

Definition network_menu : M control :=
  print_section "Network Debugging" ;;
  print "  1) Connectivity test (ping)" ;;
  print "  2) Port scan" ;;
  print "  3) DNS resolution" ;;
  print "  4) Traceroute" ;;
  print "  5) Active connections" ;;
  print "  6) Interface statistics" ;;
  print "  7) TCP dump (capture)" ;;
  print "  b) Back to main menu" ;;
  print "" ;;
  choice <- input "Enter choice: " ;;
  let choice := Py.strip choice in
  if String.eqb choice "1" then ping_test ;; ret Continue
  else if String.eqb choice "2" then port_scan ;; ret Continue
  else if String.eqb choice "3" then dns_test ;; ret Continue
  else if String.eqb choice "4" then traceroute ;; ret Continue
  else if String.eqb choice "5" then show_connections ;; ret Continue
  else if String.eqb choice "6" then interface_stats ;; ret Continue
  else if String.eqb choice "7" then tcpdump_capture ;; ret Continue
  else if String.eqb (Py.lower choice) "b" then ret Break
  else ret Continue.

Definition process_menu : M control :=
  print_section "Process Debugging" ;;
  print "  1) Top processes by CPU" ;;
  print "  2) Top processes by memory" ;;
  print "  3) Find process by name" ;;
  print "  4) Process details (strace)" ;;
  print "  5) Open files by process" ;;
  print "  6) Thread analysis" ;;
  print "  7) Zombie processes" ;;
  print "  b) Back to main menu" ;;
  print "" ;;
  choice <- input "Enter choice: " ;;
  let choice := Py.strip choice in
  if String.eqb choice "1" then top_by_cpu ;; ret Continue
  else if String.eqb choice "2" then top_by_memory ;; ret Continue
  else if String.eqb choice "3" then find_process ;; ret Continue
  else if String.eqb choice "4" then strace_process ;; ret Continue
  else if String.eqb choice "5" then open_files ;; ret Continue
  else if String.eqb choice "6" then thread_analysis ;; ret Continue
  else if String.eqb choice "7" then zombie_processes ;; ret Continue
  else if String.eqb (Py.lower choice) "b" then ret Break
  else ret Continue.

Definition log_menu : M control :=
  print_section "Log Analysis" ;;
  print "  1) System logs (journalctl)" ;;
  print "  2) Auth/security logs" ;;
  print "  3) Kernel messages (dmesg)" ;;
  print "  4) Search logs by pattern" ;;
  print "  5) Failed services" ;;
  print "  6) Recent errors" ;;
  print "  b) Back to main menu" ;;
  print "" ;;
  choice <- input "Enter choice: " ;;
  let choice := Py.strip choice in
  if String.eqb choice "1" then journalctl_menu ;; ret Continue
  else if String.eqb choice "2" then auth_logs ;; ret Continue
  else if String.eqb choice "3" then dmesg_logs ;; ret Continue
  else if String.eqb choice "4" then search_logs ;; ret Continue
  else if String.eqb choice "5" then failed_services ;; ret Continue
  else if String.eqb choice "6" then recent_errors ;; ret Continue
  else if String.eqb (Py.lower choice) "b" then ret Break
  else ret Continue.

Definition resource_menu : M control :=
  print_section "Resource Analysis" ;;
  print "  1) Real-time monitoring (top)" ;;
  print "  2) Memory details" ;;
  print "  3) Disk I/O (iotop)" ;;
  print "  4) Disk usage" ;;
  print "  5) Memory pressure" ;;
  print "  6) CPU info" ;;
  print "  7) I/O stats" ;;
  print "  b) Back to main menu" ;;
  print "" ;;
  choice <- input "Enter choice: " ;;
  let choice := Py.strip choice in
  if String.eqb choice "1" then run_interactive_cmd "top" ;; ret Continue
  else if String.eqb choice "2" then memory_details ;; ret Continue
  else if String.eqb choice "3" then
    run_interactive_cmd
      "iotop -a 2>/dev/null || echo 'iotop not installed (requires root)'" ;;
    ret Continue
  else if String.eqb choice "4" then disk_usage ;; ret Continue
  else if String.eqb choice "5" then memory_pressure ;; ret Continue
  else if String.eqb choice "6" then cpu_info ;; ret Continue
  else if String.eqb choice "7" then io_stats ;; ret Continue
  else if String.eqb (Py.lower choice) "b" then ret Break
  else ret Continue.

Definition k8s_menu : M control :=
  ns <- get_namespace ;;
  print_section ("Kubernetes Debugging (ns: " ++ ns ++ ")") ;;
  print "  1) Pod status" ;;
  print "  2) Get pod logs" ;;
  print "  3) Exec into pod" ;;
  print "  4) Describe pod" ;;
  print "  5) Port forward" ;;
  print "  6) Recent events" ;;
  print "  7) Node status" ;;
  print "  8) Change namespace" ;;
  print "  b) Back to main menu" ;;
  print "" ;;
  choice <- input "Enter choice: " ;;
  let choice := Py.strip choice in
  if String.eqb choice "1" then k8s_pod_status ;; ret Continue
  else if String.eqb choice "2" then k8s_logs ;; ret Continue
  else if String.eqb choice "3" then k8s_exec ;; ret Continue
  else if String.eqb choice "4" then k8s_describe ;; ret Continue
  else if String.eqb choice "5" then k8s_port_forward ;; ret Continue
  else if String.eqb choice "6" then k8s_events ;; ret Continue
  else if String.eqb choice "7" then k8s_nodes ;; ret Continue
  else if String.eqb choice "8" then change_namespace ;; ret Continue
  else if String.eqb (Py.lower choice) "b" then ret Break
  else ret Continue.

Definition main_menu : M control :=
  print_header "Debug Toolkit" ;;
  host <- get_remote_host ;;
  let target := if Py.truthy_opt host then Py.format_opt host else "localhost" in
  print ("  Target: " ++ target) ;;
  print "" ;;
  print "  1) Network Debugging" ;;
  print "  2) Process Debugging" ;;
  print "  3) Log Analysis" ;;
  print "  4) Resource Analysis" ;;
  print "  5) Kubernetes Debugging" ;;
  print "  q) Quit" ;;
  print "" ;;
  choice <- input "Enter choice: " ;;
  let choice := Py.strip choice in
  if String.eqb choice "1" then ret (Call NetworkMenu)
  else if String.eqb choice "2" then ret (Call ProcessMenu)
  else if String.eqb choice "3" then ret (Call LogMenu)
  else if String.eqb choice "4" then ret (Call ResourceMenu)
  else if String.eqb choice "5" then ret (Call K8sMenu)
  else if String.eqb (Py.lower choice) "q" then
    print (LF ++ "Goodbye!") ;; ret Break
  else ret Continue.

(** The loop body of the method that shows menu [m]. *)
Definition screen (m : menu) : M control :=
  match m with
  | MainMenu => main_menu
  | NetworkMenu => network_menu
  | ProcessMenu => process_menu
  | LogMenu => log_menu
  | ResourceMenu => resource_menu
  | K8sMenu => k8s_menu
  end.

(** *** The navigator

    The menu loops that are running, innermost first: the call stack
    of the menu methods.  One step is one pass through the loop body
    of the innermost one. *)
Definition step (stack : list menu) : M (list menu) :=
  match stack with
  | [] => ret []
  | m :: callers =>
      c <- screen m ;;
      ret (match c with
           | Continue => m :: callers
           | Break => callers
           | Call m' => m' :: m :: callers
           end)
  end.

(** At most [fuel] steps, stopping when no loop is left. *)
Fixpoint navigate (fuel : nat) (stack : list menu) : M (list menu) :=
  match stack, fuel with
  | [], _ => ret []
  | _, O => ret stack
  | _, S fuel' => stack' <- step stack ;; navigate fuel' stack'
  end.

(** *** Start-up *)

(** The state in which [toolkit.main_menu()] is called. *)
Definition boot (a : argv) (typed : list string) : state :=
  let parsed := parse_args a in
  {| self := DebugToolkit_init (remote parsed) (namespace_arg parsed);
     stdin := typed;
     clock := 0 |}.

(** [main()], run for at most [fuel] screens on the lines [typed]: when
    [main_menu] returns the script ends and the interpreter exits with
    status 0. *)
Definition main (fuel : nat) (a : argv) (typed : list string)
  : list event * exit * state :=
  let r := navigate fuel [MainMenu] (boot a typed) in
  (events r,
   match value r with
   | Return [] => Exited 0
   | Return stack => Still_running stack
   | Raise e => Uncaught e
   | Hang => Stuck
   end,
   final r).

End Console.

(** * Vocabulary of the properties *)

(** The budget of a captured execution, in time units. *)
Definition budget : Q := 60%Q.

(** The execution of a process exceeds the budget. *)
Definition exceeds_budget (p : process) : Prop :=
  match p with
  | Exits elapsed _ _ => (budget < elapsed)%Q
  | Runs_forever => True
  | Fails _ => False
  end.

(** A captured execution fails: the process cannot be run, exits with a
    code other than 0, or is not done within the budget. *)
Definition fails (p : process) : Prop :=
  match p with
  | Exits elapsed rc _ => (budget < elapsed)%Q \/ rc <> 0%Z
  | Runs_forever => True
  | Fails _ => True
  end.

(** The process only ever raises exceptions of class [Exception]. *)
Definition ordinary (p : process) : Prop :=
  match p with
  | Fails e => is_Exception e = true
  | _ => True
  end.

(** A remote target is set: the test [if remote_host:] of the script,
    true for a host string that is not empty. *)
Definition target_set (remote_host : option string) : bool :=
  Py.truthy_opt remote_host.

(** Every write to standard output comes before every write to standard
    error. *)
Fixpoint stdout_first (ws : list (channel * string)) : Prop :=
  match ws with
  | [] => True
  | (Stdout, _) :: r => stdout_first r
  | (Stderr, _) :: r => written Stdout r = EmptyString
  end.

(** No carriage return in the string, resp. in any write of the child. *)
Fixpoint no_cr (s : string) : bool :=
  match s with
  | EmptyString => true
  | String c r => negb (Ascii.eqb c (ascii_of_nat 13)) && no_cr r
  end.

Definition cr_free (ws : list (channel * string)) : Prop :=
  forall ch s, In (ch, s) ws -> no_cr s = true.

(** The first claim as the specification words it: a pair is returned
    and every failure shows as a non-zero code with some text. *)
Definition folds_every_failure (spawn : string -> process)
  (cmd : string) (remote_host : option string) : Prop :=
  exists code text,
    run_command spawn cmd remote_host = Return (code, text) /\
    (fails (spawn (captured_cmdline cmd remote_host)) ->
     code <> 0%Z /\ text <> EmptyString).

(** The fourth claim as the specification words it: the combined output
    is the text in the order the process produced it. *)
Definition keeps_interleaving (spawn : string -> process)
  (cmd : string) (remote_host : option string) : Prop :=
  forall elapsed rc ws,
    spawn (captured_cmdline cmd remote_host) = Exits elapsed rc ws ->
    (elapsed <= budget)%Q ->
    run_command spawn cmd remote_host = Return (rc, interleaved ws).

(** The command strings handed to the gateway, in order. *)
Fixpoint commands (evs : list event) : list string :=
  match evs with
  | [] => []
  | Captured cmd _ _ :: r => cmd :: commands r
  | Interactive cmd _ :: r => cmd :: commands r
  | _ :: r => commands r
  end.

(** The command carries the namespace [ns] as the flag [-n ns]. *)
Definition has_namespace_flag (ns cmd : string) : Prop :=
  exists before after, cmd = before ++ "-n " ++ ns ++ after.

(** The prompt of the change-namespace action. *)
Definition namespace_prompt : string := LF ++ "New namespace: ".

(** The leaf actions, by the menu entry that invokes them. *)
Inductive leaf : Type :=
| PingTest | PortScan | DnsTest | Traceroute | ShowConnections
| InterfaceStats | TcpdumpCapture
| TopByCpu | TopByMemory | FindProcess | StraceProcess | OpenFiles
| ThreadAnalysis | ZombieProcesses
| JournalctlMenu | AuthLogs | DmesgLogs | SearchLogs | FailedServices
| RecentErrors
| Top | MemoryDetails | Iotop | DiskUsage | MemoryPressure | CpuInfo | IoStats
| K8sPodStatus | K8sLogs | K8sExec | K8sDescribe | K8sPortForward
| K8sEvents | K8sNodes | ChangeNamespace.

Definition invoke (spawn : nat -> string -> process)
  (terminal : nat -> string -> session) (a : leaf) : M unit :=
  match a with
  | PingTest => ping_test spawn
  | PortScan => port_scan spawn
  | DnsTest => dns_test spawn
  | Traceroute => traceroute terminal
  | ShowConnections => show_connections spawn
  | InterfaceStats => interface_stats spawn
  | TcpdumpCapture => tcpdump_capture terminal
  | TopByCpu => top_by_cpu spawn
  | TopByMemory => top_by_memory spawn
  | FindProcess => find_process spawn
  | StraceProcess => strace_process terminal
  | OpenFiles => open_files spawn
  | ThreadAnalysis => thread_analysis spawn
  | ZombieProcesses => zombie_processes spawn
  | JournalctlMenu => journalctl_menu terminal
  | AuthLogs => auth_logs spawn
  | DmesgLogs => dmesg_logs spawn
  | SearchLogs => search_logs spawn
  | FailedServices => failed_services spawn
  | RecentErrors => recent_errors spawn
  | Top => run_interactive_cmd terminal "top"
  | MemoryDetails => memory_details spawn
  | Iotop =>
      run_interactive_cmd terminal
        "iotop -a 2>/dev/null || echo 'iotop not installed (requires root)'"
  | DiskUsage => disk_usage spawn
  | MemoryPressure => memory_pressure spawn
  | CpuInfo => cpu_info spawn
  | IoStats => io_stats spawn
  | K8sPodStatus => k8s_pod_status spawn
  | K8sLogs => k8s_logs spawn terminal
  | K8sExec => k8s_exec terminal
  | K8sDescribe => k8s_describe terminal
  | K8sPortForward => k8s_port_forward terminal
  | K8sEvents => k8s_events spawn
  | K8sNodes => k8s_nodes spawn
  | ChangeNamespace => change_namespace spawn
  end.

(** The actions of the Kubernetes menu. *)
Definition kubernetes_actions : list leaf :=
  [K8sPodStatus; K8sLogs; K8sExec; K8sDescribe; K8sPortForward; K8sEvents;
   K8sNodes; ChangeNamespace].

(** Those among them that work inside one namespace. *)
Definition namespaced_actions : list leaf :=
  [K8sPodStatus; K8sLogs; K8sExec; K8sDescribe; K8sPortForward; K8sEvents].

(** The lines printed right after an event, up to the next prompt or
    execution. *)
Fixpoint printed (evs : list event) : list string :=
  match evs with
  | Print s :: r => s :: printed r
  | _ => []
  end.

(** [P cmd output shown] holds of every captured execution that returned:
    [output] is its text and [shown] what is printed right after it. *)
Fixpoint each_capture (P : string -> string -> list string -> Prop)
  (evs : list event) : Prop :=
  match evs with
  | [] => True
  | Captured cmd _ (Return (_, output)) :: r =>
      P cmd output (printed r) /\ each_capture P r
  | _ :: r => each_capture P r
  end.

(** How an action treats the text of a captured execution. *)
Inductive treatment : Type :=
| Verbatim
| Placeholder (text : string)
| Digest.

Definition treated (t : treatment) (output : string) (shown : list string)
  : Prop :=
  match t with
  | Verbatim => In output shown
  | Placeholder text =>
      (output <> "" -> In output shown) /\
      (output = "" -> In text shown /\ ~ In "" shown)
  | Digest => True
  end.

(** The treatment each action gives to the command [cmd] it captures. *)
Definition display (a : leaf) (cmd : string) : treatment :=
  match a with
  | FindProcess => Placeholder "No matching processes"
  | OpenFiles => Placeholder "No results (may require root)"
  | AuthLogs => Placeholder "Auth log not found"
  | SearchLogs => Placeholder "No matches found"
  | RecentErrors => Placeholder "No errors in the last hour"
  | ZombieProcesses => Placeholder (colored (LF ++ "No zombie processes") Colors.GREEN)
  | DnsTest => if prefix "dig " cmd then Placeholder "No results" else Verbatim
  | PortScan | MemoryPressure => Digest
  | _ => Verbatim
  end.

(** The ninth claim as the specification words it: an empty output is
    replaced by a placeholder, a non-empty one is printed as it is. *)
Definition placeholder_for_empty (cmd output : string) (shown : list string)
  : Prop :=
  (output <> "" -> In output shown) /\
  (output = "" -> shown <> [] /\ ~ In "" shown).

(** The sixth claim as the specification words it: every command built
    by a Kubernetes action carries the active namespace as a flag. *)
Definition always_namespaced (spawn : nat -> string -> process)
  (terminal : nat -> string -> session) (st : state) : Prop :=
  forall a, In a kubernetes_actions ->
    Forall (has_namespace_flag (namespace (self st)))
           (commands (events (invoke spawn terminal a st))).

(** The fifth claim as the specification words it: whatever the operator
    types, the namespace is not empty after any number of screens. *)
Definition namespace_never_empty (spawn : nat -> string -> process)
  (terminal : nat -> string -> session) (typed : list string) : Prop :=
  forall fuel,
    namespace (self (final (navigate spawn terminal fuel [MainMenu]
                              (boot {| opt_remote := None;
                                       opt_namespace := None |} typed))))
    <> "".

(** The method leaves the fields of [self] as they are. *)
Definition keeps_self {A} (m : M A) : Prop :=
  forall st, self (final (m st)) = self st.

(** The method leaves the remote host alone, and the namespace it leaves
    is the one it found or an answer to the change-namespace prompt,
    stripped. *)
Definition tracks_namespace {A} (m : M A) : Prop :=
  forall st,
    remote_host (self (final (m st))) = remote_host (self st) /\
    (namespace (self (final (m st))) = namespace (self st) \/
     exists answer,
       In (Prompt namespace_prompt (Some answer)) (events (m st)) /\
       namespace (self (final (m st))) = Py.strip answer).

(** The screen goes on with its own loop or leaves it; it opens no other
    menu. *)
Definition opens_nothing (m : M control) : Prop :=
  forall st c, value (m st) = Return c -> c = Continue \/ c = Break.

(** The stacks of menu loops the navigator can be in: none (the console
    has quit), the main menu alone, or one menu above the main menu. *)
Definition well_stacked (stack : list menu) : Prop :=
  stack = [] \/ stack = [MainMenu] \/
  exists m, m <> MainMenu /\ stack = [m; MainMenu].

(** The method gives no line back to the operator's input. *)
Definition no_more_input {A} (m : M A) : Prop :=
  forall st, length (stdin (final (m st))) <= length (stdin st).

(** The method returns only after it has read a line. *)
Definition reads_a_line {A} (m : M A) : Prop :=
  forall st a, value (m st) = Return a ->
               length (stdin (final (m st))) < length (stdin st).

(** The world is tame: a captured child raises nothing outside
    [Exception], and an interactive child ends, or is interrupted by the
    operator. *)
Definition tame_spawn (spawn : nat -> string -> process) : Prop :=
  forall n cmd, ordinary (spawn n cmd).

Definition tame_terminal (terminal : nat -> string -> session) : Prop :=
  forall n cmd,
    match terminal n cmd with
    | Ends _ => True
    | Breaks _ e => class e = KeyboardInterrupt
    | Never_ends => False
    end.

(** The method returns, or raises [EOFError]; it does not hang. *)
Definition ends_well {A} (m : M A) : Prop :=
  forall st,
    match value (m st) with
    | Return _ => True
    | Raise e => class e = EOFError
    | Hang => False
    end.

(** Every execution among the events is addressed to the host [h]. *)
Definition addressed_to (h : option string) (evs : list event) : Prop :=
  forall ev, In ev evs ->
    match ev with
    | Captured _ h' _ => h' = h
    | Interactive _ h' => h' = h
    | _ => True
    end.

(** The method addresses every execution to the remote host of the
    session and leaves that host as it is. *)
Definition addresses_target {A} (m : M A) : Prop :=
  forall st,
    addressed_to (remote_host (self st)) (events (m st)) /\
    remote_host (self (final (m st))) = remote_host (self st).

(** The choices each menu acts on, tested on the stripped line. *)
Definition recognised (m : menu) (choice : string) : bool :=
  match m with
  | MainMenu =>
      String.eqb choice "1" || String.eqb choice "2" || String.eqb choice "3"
      || String.eqb choice "4" || String.eqb choice "5"
      || String.eqb (Py.lower choice) "q"
  | LogMenu =>
      String.eqb choice "1" || String.eqb choice "2" || String.eqb choice "3"
      || String.eqb choice "4" || String.eqb choice "5" || String.eqb choice "6"
      || String.eqb (Py.lower choice) "b"
  | K8sMenu =>
      String.eqb choice "1" || String.eqb choice "2" || String.eqb choice "3"
      || String.eqb choice "4" || String.eqb choice "5" || String.eqb choice "6"
      || String.eqb choice "7" || String.eqb choice "8"
      || String.eqb (Py.lower choice) "b"
  | NetworkMenu | ProcessMenu | ResourceMenu =>
      String.eqb choice "1" || String.eqb choice "2" || String.eqb choice "3"
      || String.eqb choice "4" || String.eqb choice "5" || String.eqb choice "6"
      || String.eqb choice "7"
      || String.eqb (Py.lower choice) "b"
  end.

(** The lines printed, in order. *)
Fixpoint prints (evs : list event) : list string :=
  match evs with
  | [] => []
  | Print s :: r => s :: prints r
  | _ :: r => prints r
  end.

(** The probe [port_scan] runs for one port of a list. *)
Definition probe (target port : string) : string :=
  "nc -zv -w2 " ++ target ++ " " ++ Py.strip port ++ " 2>&1".

(** A report of a port list: for each port in order, one probe that
    returned and one line telling the port open exactly when the probe
    exited with code 0. *)
Inductive scan_report (target : string) (host : option string)
  : list string -> list event -> Prop :=
| scan_done : scan_report target host [] []
| scan_port port ports code output evs :
    scan_report target host ports evs ->
    scan_report target host (port :: ports)
      (Captured (probe target port) host (Return (code, output))
       :: Print ("  Port " ++ Py.strip port ++ ": "
                 ++ (if Z.eqb code 0
                     then colored "OPEN" Colors.GREEN
                     else colored "CLOSED" Colors.RED))
       :: evs).

(** The actions that hand the terminal to the command they run. *)
Definition interactive_actions : list leaf :=
  [Traceroute; TcpdumpCapture; StraceProcess; JournalctlMenu; Top; Iotop;
   K8sExec; K8sDescribe; K8sPortForward].

(** No execution among the events is interactive (resp. captured). *)
Definition no_interactive (evs : list event) : Prop :=
  forall cmd host, ~ In (Interactive cmd host) evs.

Definition no_captured (evs : list event) : Prop :=
  forall cmd host r, ~ In (Captured cmd host r) evs.

(** Whatever the state, the events of the method satisfy [Q]. *)
Definition emits (Q : list event -> Prop) {A} (m : M A) : Prop :=
  forall st, Q (events (m st)).

(** * Strings *)

Lemma append_assoc (a b c : string) : (a ++ b) ++ c = a ++ (b ++ c).
Proof.
  induction a as [|x a IH]; simpl; [reflexivity|].
  now rewrite IH.
Qed.

Lemma append_nil_r (a : string) : a ++ "" = a.
Proof.
  induction a as [|x a IH]; simpl; [reflexivity|].
  now rewrite IH.
Qed.

Lemma length_append (a b : string) :
  String.length (a ++ b) = String.length a + String.length b.
Proof.
  induction a as [|x a IH]; simpl; [reflexivity|].
  now rewrite IH.
Qed.

Lemma prefix_append (n s : string) : prefix n (n ++ s) = true.
Proof.
  induction n as [|x n IH]; simpl.
  - now destruct s.
  - destruct (ascii_dec x x) as [_|ne]; [exact IH|now elim ne].
Qed.

Lemma contains_prefix (n s : string) :
  prefix n s = true -> Py.contains n s = true.
Proof. intros H. destruct s; simpl in *; now rewrite H. Qed.

Lemma contains_skip (n : string) (x : ascii) (s : string) :
  Py.contains n s = true -> Py.contains n (String x s) = true.
Proof.
  intros H. change (Py.contains n (String x s))
    with (if prefix n (String x s) then true else Py.contains n s).
  rewrite H. now destruct (prefix n (String x s)).
Qed.

(** A string contains what it is built around. *)
Lemma contains_append (n pre suf : string) :
  Py.contains n (pre ++ n ++ suf) = true.
Proof.
  induction pre as [|x pre IH].
  - apply contains_prefix. exact (prefix_append n suf).
  - apply (contains_skip n x (pre ++ n ++ suf) IH).
Qed.

(** The string methods on code points beyond ASCII: a no-break space
    (160) and a next-line character (133) are stripped like a blank, the
    superscript two (178) is a digit, and an accented capital is
    lowered. *)
Example strip_no_break_space :
  Py.strip (String (ascii_of_nat 160) "1" ++ String (ascii_of_nat 133) "") = "1"
  /\ Py.strip (String (ascii_of_nat 160) "") = "".
Proof. split; reflexivity. Qed.

Example isdigit_superscript :
  Py.isdigit (String (ascii_of_nat 178) "") = true /\ Py.isdigit "12a" = false.
Proof. split; reflexivity. Qed.

Example lower_accented_capital :
  Py.lower (String (ascii_of_nat 192) "B") = String (ascii_of_nat 224) "b".
Proof. reflexivity. Qed.

(** Text mode turns CR LF and a lone CR into LF. *)
Example translate_newlines_mixed :
  translate_newlines
    ("a" ++ String (ascii_of_nat 13) (String (ascii_of_nat 10) "b")
         ++ String (ascii_of_nat 13) "c")
  = "a" ++ String (ascii_of_nat 10) "b" ++ String (ascii_of_nat 10) "c".
Proof. reflexivity. Qed.

(** * The execution gateway *)

Section GatewayFacts.

Variable spawn : string -> process.

Lemma Qle_bool_budget (elapsed : Q) :
  (budget < elapsed)%Q -> Qle_bool elapsed 60 = false.
Proof.
  intros H. destruct (Qle_bool elapsed 60) eqn:E; [|reflexivity].
  apply Qle_bool_iff in E. unfold budget in H.
  exfalso. apply (Qlt_not_le _ _ H E).
Qed.

Lemma Qle_bool_within (elapsed : Q) :
  (elapsed <= budget)%Q -> Qle_bool elapsed 60 = true.
Proof. intros H. now apply Qle_bool_iff. Qed.


Lemma run_command_over_budget cmd host :
  exceeds_budget (spawn (captured_cmdline cmd host)) ->
  run_command spawn cmd host = Return (1%Z, "Command timed out").
Proof.
  unfold run_command, subprocess_run_captured.
  destruct (spawn (captured_cmdline cmd host)) as [t rc ws| |e]; simpl.
  - intros H. now rewrite (Qle_bool_budget _ H).
  - reflexivity.
  - intros [].
Qed.

Lemma run_command_completed cmd host elapsed rc ws :
  spawn (captured_cmdline cmd host) = Exits elapsed rc ws ->
  (elapsed <= budget)%Q ->
  run_command spawn cmd host
  = Return (rc, translate_newlines (written Stdout ws)
                  ++ translate_newlines (written Stderr ws)).
Proof.
  intros E H. unfold run_command, subprocess_run_captured.
  rewrite E, (Qle_bool_within _ H). reflexivity.
Qed.

Lemma run_command_exception cmd host e :
  spawn (captured_cmdline cmd host) = Fails e ->
  is_Exception e = true ->
  run_command spawn cmd host
  = Return (1%Z, match class e with
                 | TimeoutExpired => "Command timed out"
                 | _ => str e
                 end).
Proof.
  intros E H. unfold run_command, subprocess_run_captured. rewrite E.
  unfold is_Exception in *. destruct (class e); try discriminate; reflexivity.
Qed.

Lemma run_command_propagates cmd host e :
  spawn (captured_cmdline cmd host) = Fails e ->
  is_Exception e = false ->
  run_command spawn cmd host = Raise e.
Proof.
  intros E H. unfold run_command, subprocess_run_captured. rewrite E.
  unfold is_Exception in *. destruct (class e); try discriminate; reflexivity.
Qed.

Lemma append_eq_nil (a b : string) : a ++ b = "" -> a = "" /\ b = "".
Proof. destruct a; simpl; [intros ->; split; reflexivity | discriminate]. Qed.

Lemma stderr_only_interleaved ws :
  written Stdout ws = "" -> written Stderr ws = interleaved ws.
Proof.
  induction ws as [|[[|] s] ws IH]; simpl; intros H.
  - reflexivity.
  - apply append_eq_nil in H as [-> H]. simpl. now apply IH.
  - f_equal. now apply IH.
Qed.

Lemma stdout_first_interleaved ws :
  stdout_first ws ->
  written Stdout ws ++ written Stderr ws = interleaved ws.
Proof.
  induction ws as [|[[|] s] ws IH]; simpl; intros H.
  - reflexivity.
  - rewrite append_assoc. now rewrite IH.
  - rewrite H. simpl. f_equal. now apply stderr_only_interleaved.
Qed.

Lemma replace_crlf_no_cr (s : string) : no_cr s = true -> replace_crlf s = s.
Proof.
  induction s as [|c r IH]; [reflexivity|].
  cbn [no_cr]. intros H. apply andb_prop in H as [Hc Hr].
  cbn [replace_crlf]. destruct r as [|c' r']; [reflexivity|].
  apply negb_true_iff in Hc. rewrite Hc. cbn [andb].
  now rewrite (IH Hr).
Qed.

Lemma replace_cr_no_cr (s : string) : no_cr s = true -> replace_cr s = s.
Proof.
  induction s as [|c r IH]; [reflexivity|].
  cbn [no_cr replace_cr]. intros H. apply andb_prop in H as [Hc Hr].
  apply negb_true_iff in Hc. rewrite Hc. now rewrite (IH Hr).
Qed.

(** Text without carriage returns is read as it was written. *)
Lemma translate_newlines_no_cr (s : string) :
  no_cr s = true -> translate_newlines s = s.
Proof.
  intros H. unfold translate_newlines.
  now rewrite (replace_crlf_no_cr s H), (replace_cr_no_cr s H).
Qed.

Lemma no_cr_append (a b : string) :
  no_cr a = true -> no_cr b = true -> no_cr (a ++ b) = true.
Proof.
  intros Ha Hb. induction a as [|c a IH]; [exact Hb|].
  cbn [no_cr append] in *. apply andb_prop in Ha as [Hc Ha].
  now rewrite Hc, (IH Ha).
Qed.

Lemma written_no_cr (ch : channel) (ws : list (channel * string)) :
  cr_free ws -> no_cr (written ch ws) = true.
Proof.
  induction ws as [|[c s] ws IH]; intros H; [reflexivity|].
  assert (Hws : cr_free ws) by (intros ch' s' Hin; apply (H ch' s'); now right).
  cbn [written]. destruct (channel_eqb c ch); [|now apply IH].
  apply no_cr_append; [apply (H c s); now left|now apply IH].
Qed.

End GatewayFacts.

(** A wrapped command line is longer than the command, so wrapping is
    never the identity. *)
Lemma wrapped_differs (pre h cmd : string) :
  pre ++ h ++ " '" ++ cmd ++ "'" <> cmd.
Proof.
  intros E. apply (f_equal String.length) in E.
  rewrite !length_append in E. simpl in E. lia.
Qed.

(** C1 (as amended).  A captured execution returns an (exit code, text)
    pair whenever the child completes, exceeds the budget or fails with
    an exception of class [Exception]; every such failure shows as a
    non-zero exit code: 1 with the text "Command timed out" on a timeout,
    1 with [str(e)] on an exception, and the child's own code with the
    child's own output as read in text mode (standard output, then
    standard error, line ends translated), whatever it is, on a non-zero
    exit. *)
Theorem run_command_folds_failures
  (spawn : string -> process) (cmd : string) (host : option string) :
  ordinary (spawn (captured_cmdline cmd host)) ->
  exists code text,
    run_command spawn cmd host = Return (code, text) /\
    (fails (spawn (captured_cmdline cmd host)) -> code <> 0%Z) /\
    (exceeds_budget (spawn (captured_cmdline cmd host)) ->
     code = 1%Z /\ text = "Command timed out") /\
    (forall e, spawn (captured_cmdline cmd host) = Fails e ->
               code = 1%Z /\ (class e <> TimeoutExpired -> text = str e)) /\
    (forall elapsed rc ws,
        spawn (captured_cmdline cmd host) = Exits elapsed rc ws ->
        (elapsed <= budget)%Q ->
        code = rc /\
        text = translate_newlines (written Stdout ws)
                 ++ translate_newlines (written Stderr ws)).
Proof.
  intros Hord.
  destruct (spawn (captured_cmdline cmd host)) as [t rc ws| |e] eqn:E.
  - destruct (Qlt_le_dec budget t) as [Hover|Hin].
    + exists 1%Z, "Command timed out".
      split; [apply run_command_over_budget; now rewrite E|].
      split; [discriminate|].
      split; [split; reflexivity|].
      split; [discriminate|].
      intros t' rc' ws' H Hle. exfalso. injection H as <- _ _.
      apply (Qlt_not_le _ _ Hover Hle).
    + exists rc, (translate_newlines (written Stdout ws)
                    ++ translate_newlines (written Stderr ws)).
      split; [now apply (run_command_completed spawn cmd host t)|].
      split; [intros [Hover|Hrc];
              [exfalso; apply (Qlt_not_le _ _ Hover Hin)|exact Hrc]|].
      split; [intros Hover; exfalso; apply (Qlt_not_le _ _ Hover Hin)|].
      split; [discriminate|].
      intros t' rc' ws' H _. injection H as _ <- <-. split; reflexivity.
  - exists 1%Z, "Command timed out".
    split; [apply run_command_over_budget; now rewrite E|].
    split; [discriminate|].
    split; [split; reflexivity|].
    split; discriminate.
  - simpl in Hord.
    exists 1%Z, (match class e with
                 | TimeoutExpired => "Command timed out"
                 | _ => str e
                 end).
    split; [now apply run_command_exception|].
    split; [discriminate|].
    split; [intros []|].
    split; [|discriminate].
    intros e' H. injection H as <-. split; [reflexivity|].
    intros Hne. destruct (class e); try reflexivity. now elim Hne.
Qed.

Lemma run_command_folds_failures_witness :
  exists code text,
    run_command (fun _ => Fails {| class := OtherException;
                                   str := "[Errno 2] No such file or directory: '/bin/sh'" |})
                "uptime" None = Return (code, text) /\ code = 1%Z.
Proof.
  destruct (run_command_folds_failures
              (fun _ => Fails {| class := OtherException;
                                 str := "[Errno 2] No such file or directory: '/bin/sh'" |})
              "uptime" None) as (code & text & Hr & _ & _ & He & _).
  - reflexivity.
  - exists code, text. split; [exact Hr|].
    exact (proj1 (He _ eq_refl)).
Defined.

(** C1 (as worded) fails: a child that exits with code 1 and writes
    nothing, as [false] does, yields the pair (1, "") with no text. *)
Lemma run_command_silent_failure :
  ~ folds_every_failure (fun _ => Exits 0 1 []) "false" None.
Proof.
  intros (code & text & Hr & Hf).
  vm_compute in Hr. injection Hr as <- <-.
  destruct Hf as [_ Htext].
  - right. discriminate.
  - now apply Htext.
Qed.



(** C3.  A command is wrapped for remote delivery exactly when a remote
    target is set: for a captured execution the command line is
    [ssh -o ConnectTimeout=10 -o BatchMode=yes HOST 'CMD'], for an
    interactive one [ssh -t HOST 'CMD']; with no target the command is
    handed to the shell unchanged. *)
Theorem remote_wrapping (cmd : string) (host : option string) :
  (target_set host = true ->
   exists h, host = Some h /\ h <> "" /\
     captured_cmdline cmd host
     = "ssh -o ConnectTimeout=10 -o BatchMode=yes " ++ h ++ " '" ++ cmd ++ "'" /\
     interactive_cmdline cmd host = "ssh -t " ++ h ++ " '" ++ cmd ++ "'") /\
  (target_set host = false ->
   captured_cmdline cmd host = cmd /\ interactive_cmdline cmd host = cmd) /\
  (host = None -> target_set host = false) /\
  (captured_cmdline cmd host <> cmd <-> target_set host = true) /\
  (interactive_cmdline cmd host <> cmd <-> target_set host = true).
Proof.
  unfold target_set, captured_cmdline, interactive_cmdline.
  destruct host as [[|c h]|]; simpl; repeat split;
    try discriminate; try reflexivity; try congruence; intros.
  - exists (String c h). repeat split; discriminate.
  - apply (wrapped_differs "ssh -o ConnectTimeout=10 -o BatchMode=yes "
             (String c h) cmd).
  - apply (wrapped_differs "ssh -t " (String c h) cmd).
Qed.

(** An empty host string counts as no target: the test is [if remote_host:],
    as for the "Target:" line of the main menu. *)
Example empty_host_is_no_target :
  target_set (Some "") = false /\ captured_cmdline "echo hi" (Some "") = "echo hi".
Proof. split; reflexivity. Qed.

Example echo_hi_local : captured_cmdline "echo hi" None = "echo hi".
Proof. reflexivity. Qed.

Example echo_hi_on_host1 :
  captured_cmdline "echo hi" (Some "host1")
  = "ssh -o ConnectTimeout=10 -o BatchMode=yes host1 'echo hi'" /\
  interactive_cmdline "echo hi" (Some "host1") = "ssh -t host1 'echo hi'".
Proof. split; reflexivity. Qed.

(** C4 (as amended).  The combined output of a captured execution is all
    of standard output followed by all of standard error, each as read
    in text mode (CR LF and a lone CR become LF); it is the text in the
    order the child produced it when every write to standard output
    precedes every write to standard error and the child writes no
    carriage return. *)
Theorem combined_output_stdout_then_stderr
  (spawn : string -> process) (cmd : string) (host : option string)
  (elapsed : Q) (rc : Z) (ws : list (channel * string)) :
  spawn (captured_cmdline cmd host) = Exits elapsed rc ws ->
  (elapsed <= budget)%Q ->
  run_command spawn cmd host
  = Return (rc, translate_newlines (written Stdout ws)
                  ++ translate_newlines (written Stderr ws)) /\
  (stdout_first ws -> cr_free ws ->
   run_command spawn cmd host = Return (rc, interleaved ws)).
Proof.
  intros E H.
  rewrite (run_command_completed spawn cmd host elapsed rc ws E H).
  split; [reflexivity|].
  intros Hs Hcr.
  rewrite (translate_newlines_no_cr _ (written_no_cr Stdout ws Hcr)).
  rewrite (translate_newlines_no_cr _ (written_no_cr Stderr ws Hcr)).
  now rewrite stdout_first_interleaved.
Qed.

Lemma combined_output_stdout_then_stderr_witness :
  run_command (fun _ => Exits 1 2 [(Stdout, "total 0"); (Stderr, "ls: cannot access 'x'")])
              "ls -l . x" None
  = Return (2%Z, "total 0ls: cannot access 'x'").
Proof.
  refine (proj1 (combined_output_stdout_then_stderr
                   (fun _ => Exits 1 2 [(Stdout, "total 0");
                                        (Stderr, "ls: cannot access 'x'")])
                   "ls -l . x" None 1 2 _ eq_refl _)).
  discriminate.
Defined.

(** C4 (as worded) fails: a child that writes "a" to standard output,
    "b" to standard error and then "c" to standard output is reported as
    "acb", not as "abc". *)
Lemma interleaving_lost :
  ~ keeps_interleaving
      (fun _ => Exits 1 0 [(Stdout, "a"); (Stderr, "b"); (Stdout, "c")])
      "sh -c 'echo -n a; echo -n b >&2; echo -n c'" None.
Proof.
  intros H. specialize (H 1%Q 0%Z _ eq_refl).
  assert (Hb : (1 <= budget)%Q) by discriminate.
  specialize (H Hb). vm_compute in H. discriminate.
Qed.



(** * The console monad *)

Section MonadFacts.

Variable spawn : nat -> string -> process.
Variable terminal : nat -> string -> session.

Lemma emit_value {A} (evs : list event) (r : run A) :
  value (emit evs r) = value r.
Proof. reflexivity. Qed.

Lemma emit_final {A} (evs : list event) (r : run A) :
  final (emit evs r) = final r.
Proof. reflexivity. Qed.

Lemma emit_events {A} (evs : list event) (r : run A) :
  events (emit evs r) = (evs ++ events r)%list.
Proof. reflexivity. Qed.

Lemma bind_assoc {A B C} (m : M A) (f : A -> M B) (g : B -> M C) (st : state) :
  bind (bind m f) g st = bind m (fun a => bind (f a) g) st.
Proof.
  unfold bind. destruct (value (m st)) as [a|e|]; cbn; [|reflexivity..].
  destruct (value (f a (final (m st)))); cbn; [|reflexivity..].
  now rewrite app_assoc.
Qed.

Lemma ret_bind {A B} (a : A) (f : A -> M B) (st : state) :
  bind (ret a) f st = emit [] (f a st).
Proof. reflexivity. Qed.

Lemma print_bind {B} (s : string) (f : unit -> M B) (st : state) :
  bind (print s) f st = emit [Print s] (f tt st).
Proof. reflexivity. Qed.

Lemma input_bind {B} (p : string) (f : string -> M B) (st : state) :
  bind (input p) f st
  = match stdin st with
    | [] => {| events := [Prompt p None];
               value := Raise {| class := EOFError;
                                 str := "EOF when reading a line" |};
               final := st |}
    | line :: rest =>
        emit [Prompt p (Some line)]
             (f line {| self := self st; stdin := rest; clock := clock st |})
    end.
Proof. unfold bind, input. now destruct (stdin st). Qed.

Lemma get_namespace_bind {B} (f : string -> M B) (st : state) :
  bind get_namespace f st = emit [] (f (namespace (self st)) st).
Proof. reflexivity. Qed.

Lemma get_remote_host_bind {B} (f : option string -> M B) (st : state) :
  bind get_remote_host f st = emit [] (f (remote_host (self st)) st).
Proof. reflexivity. Qed.

Lemma set_namespace_bind {B} (ns : string) (f : unit -> M B) (st : state) :
  bind (set_namespace ns) f st
  = emit [] (f tt {| self := {| remote_host := remote_host (self st);
                                namespace := ns |};
                     stdin := stdin st;
                     clock := clock st |}).
Proof. reflexivity. Qed.

Lemma run_cmd_bind {B} (cmd : string) (f : Z * string -> M B) (st : state) :
  bind (run_cmd spawn cmd) f st
  = let host := remote_host (self st) in
    let st' := {| self := self st; stdin := stdin st; clock := S (clock st) |} in
    match run_command (spawn (clock st)) cmd host with
    | Return x => emit [Captured cmd host (Return x)] (f x st')
    | Raise e => {| events := [Captured cmd host (Raise e)];
                    value := Raise e; final := st' |}
    | Hang => {| events := [Captured cmd host Hang]; value := Hang; final := st' |}
    end.
Proof.
  unfold bind, run_cmd. cbn.
  now destruct (run_command (spawn (clock st)) cmd (remote_host (self st))).
Qed.

Lemma run_interactive_cmd_bind {B} (cmd : string) (f : unit -> M B) (st : state) :
  bind (run_interactive_cmd terminal cmd) f st
  = let host := remote_host (self st) in
    let r := run_interactive (terminal (clock st)) cmd host in
    let st' := {| self := self st;
                  stdin := skipn (fst r) (stdin st);
                  clock := S (clock st) |} in
    match snd r with
    | Return x => emit [Interactive cmd host] (f x st')
    | Raise e => {| events := [Interactive cmd host]; value := Raise e; final := st' |}
    | Hang => {| events := [Interactive cmd host]; value := Hang; final := st' |}
    end.
Proof.
  unfold bind, run_interactive_cmd. cbn.
  now destruct (snd (run_interactive (terminal (clock st)) cmd (remote_host (self st)))).
Qed.

(** A method that is not followed by anything. *)
Lemma bind_ret_r {A} (m : M A) (st : state) :
  bind m (fun a => ret a) st
  = {| events := events (m st); value := value (m st); final := final (m st) |}.
Proof.
  unfold bind, ret. destruct (value (m st)); cbn; [|reflexivity..].
  now rewrite app_nil_r.
Qed.

End MonadFacts.

(** Symbolic execution of a method, one statement at a time: the next
    [bind] is rewritten by the equation of its first statement, and the
    run splits on what the world answers (the next input line, the
    outcome of a child process) and on the tests of the script. *)
Ltac exec_step spawn terminal :=
  match goal with
  | |- context [bind (bind ?m ?f) ?g ?st] => rewrite (bind_assoc m f g st)
  | |- context [bind (ret ?a) ?f ?st] => rewrite (ret_bind a f st)
  | |- context [bind (print ?s) ?f ?st] => rewrite (print_bind s f st)
  | |- context [bind (input ?p) ?f ?st] => rewrite (input_bind p f st)
  | |- context [bind get_namespace ?f ?st] => rewrite (get_namespace_bind f st)
  | |- context [bind get_remote_host ?f ?st] => rewrite (get_remote_host_bind f st)
  | |- context [bind (set_namespace ?n) ?f ?st] => rewrite (set_namespace_bind n f st)
  | |- context [bind (run_cmd _ ?c) ?f ?st] => rewrite (run_cmd_bind spawn c f st)
  | |- context [bind (run_interactive_cmd _ ?c) ?f ?st] =>
      rewrite (run_interactive_cmd_bind terminal c f st)
  | |- context [match ?l with [] => _ | _ :: _ => _ end] => is_var l; destruct l
  | |- context [match run_command ?a ?b ?c with _ => _ end] =>
      destruct (run_command a b c) as [[? ?]|?|]
  | |- context [match snd (run_interactive ?a ?b ?c) with _ => _ end] =>
      destruct (snd (run_interactive a b c)) as [[]|?|]
  | |- context [if ?b then _ else _] => destruct b eqn:?
  end;
  cbn [events value final self stdin clock namespace remote_host emit app
       print ret fst snd].

Ltac exec spawn terminal := repeat exec_step spawn terminal.

(** A screen that starts no process runs by computation alone, up to the
    tests on the line it reads. *)
Ltac run_screen :=
  cbn [bind print input ret emit events value final self stdin clock namespace
       remote_host get_namespace get_remote_host set_namespace app fst snd].

Ltac split_tests :=
  repeat match goal with
         | |- context [if ?b then _ else _] => destruct b eqn:?
         end.

(** * Rendering of captured output *)

Lemma each_capture_trivial (P : string -> string -> list string -> Prop)
  (evs : list event) :
  (forall cmd output shown, P cmd output shown) -> each_capture P evs.
Proof.
  intros H. induction evs as [|[s|s a|cmd host [[code output]|e|]|cmd host] evs IH];
    simpl; auto.
Qed.

Lemma truthy_false (s : string) : Py.truthy s = false -> s = "".
Proof. destruct s; [reflexivity|discriminate]. Qed.

Lemma or_else_nonempty (s d : string) : s <> "" -> Py.or_else s d = s.
Proof. destruct s; [now intros []|reflexivity]. Qed.

Lemma or_else_empty (d : string) : Py.or_else "" d = d.
Proof. reflexivity. Qed.

(** Closes what is left of a rendering goal once the run is known. *)
Ltac rendered :=
  cbn;
  repeat match goal with
         | |- _ /\ _ => split
         | |- True => exact I
         | H : Py.truthy ?s = false |- _ => apply truthy_false in H; subst s
         | H : Py.truthy ?s = true |- _ => is_var s; destruct s; [discriminate H|clear H]
         | |- ?s <> "" -> _ => let Hs := fresh in intros Hs; try rewrite (or_else_nonempty _ _ Hs)
         | |- ?s = "" -> _ => let Hs := fresh in intros Hs; try rewrite Hs; try rewrite or_else_empty
         | |- ~ _ => let Hs := fresh in intros Hs; cbn in Hs
         | H : _ \/ _ |- _ => destruct H
         | H : False |- _ => destruct H
         | |- _ => discriminate
         | |- _ => congruence
         | |- _ \/ _ => (left; reflexivity) || right
         end.

(** C9 (as amended).  Seven captures substitute a placeholder for an
    empty output and print a non-empty one as it is: those of
    [find_process], [open_files], [auth_logs], [search_logs],
    [recent_errors], [zombie_processes] and the [dig] query of
    [dns_test].  Every other capture whose text is displayed is printed
    as it is, an empty output included.  ([port_scan] and
    [memory_pressure] print a digest of the text and are left out.) *)
Theorem captured_output_rendering
  (spawn : nat -> string -> process) (terminal : nat -> string -> session)
  (a : leaf) (st : state) :
  each_capture (fun cmd output shown => treated (display a cmd) output shown)
               (events (invoke spawn terminal a st)).
Proof.
  destruct st as [[host ns] inp clk].
  destruct a;
    try (apply each_capture_trivial; intros; exact I);
    cbn [invoke];
    unfold ping_test, dns_test, traceroute, show_connections, interface_stats,
      tcpdump_capture, top_by_cpu, top_by_memory, find_process, strace_process,
      open_files, thread_analysis, zombie_processes, journalctl_menu, auth_logs,
      dmesg_logs, search_logs, failed_services, recent_errors, memory_details,
      disk_usage, cpu_info, io_stats, k8s_pod_status, k8s_logs, k8s_exec,
      k8s_describe, k8s_port_forward, k8s_events, k8s_nodes, change_namespace;
    exec spawn terminal;
    rendered.
Qed.

(** C9 (as worded) fails: when the pod listing is empty, [k8s_pod_status]
    prints the empty text, not a placeholder. *)
Lemma pod_status_prints_empty_output :
  ~ each_capture placeholder_for_empty
      (events (invoke (fun _ _ => Exits 1 0 []) (fun _ _ => Ends 0) K8sPodStatus
                 {| self := {| remote_host := None; namespace := "default" |};
                    stdin := [];
                    clock := 0 |})).
Proof.
  vm_compute. intros [[_ H] _].
  destruct (H eq_refl) as [_ Hin]. apply Hin. now left.
Qed.

(** * Namespace flag of the Kubernetes commands *)

Lemma has_flag_here (ns after : string) :
  has_namespace_flag ns (String "-" (String "n" (String " " (ns ++ after)))).
Proof. exists "", after. reflexivity. Qed.

Lemma has_flag_skip_char (ns : string) (c : ascii) (s : string) :
  has_namespace_flag ns s -> has_namespace_flag ns (String c s).
Proof. intros (b & a & ->). exists (String c b), a. reflexivity. Qed.

Lemma has_flag_skip (ns pre s : string) :
  has_namespace_flag ns s -> has_namespace_flag ns (pre ++ s).
Proof.
  intros (b & a & ->). exists (pre ++ b), a. now rewrite append_assoc.
Qed.

(** A command that carries the flag contains the name of the namespace. *)
Lemma has_flag_contains (ns cmd : string) :
  has_namespace_flag ns cmd -> Py.contains ns cmd = true.
Proof.
  intros (b & a & ->).
  replace (b ++ "-n " ++ ns ++ a) with ((b ++ "-n ") ++ ns ++ a)
    by now rewrite append_assoc.
  apply contains_append.
Qed.

Ltac flagged :=
  cbn [commands];
  repeat match goal with
         | |- Forall _ [] => constructor
         | |- Forall _ (_ :: _) => constructor
         end;
  cbn [append];
  repeat first [ apply has_flag_here | apply has_flag_skip_char | apply has_flag_skip ].

Lemma namespaced_actions_flagged
  (spawn : nat -> string -> process) (terminal : nat -> string -> session)
  (a : leaf) (st : state) :
  In a namespaced_actions ->
  Forall (has_namespace_flag (namespace (self st)))
         (commands (events (invoke spawn terminal a st))).
Proof.
  destruct st as [[host ns] inp clk]. cbn [self namespace].
  intros Ha. cbn in Ha.
  repeat (destruct Ha as [<-|Ha]; [|]); try destruct Ha;
    cbn [invoke];
    unfold k8s_pod_status, k8s_logs, k8s_exec, k8s_describe, k8s_port_forward,
      k8s_events;
    exec spawn terminal;
    cbn [run_interactive_cmd events];
    flagged.
Qed.

(** C6 (as amended).  The actions that work inside a namespace (pod
    status, pod logs, exec, describe, port-forward, events) put the flag
    [-n] with the active namespace in every command they build; node
    status and the namespace listing of change-namespace are fixed,
    cluster-wide commands.  After change-namespace has switched from
    "default" to "staging", the command of pod status is
    [kubectl get pods -n staging -o wide], which contains "staging" and
    not "default". *)
Theorem kubernetes_namespace_flag
  (spawn : nat -> string -> process) (terminal : nat -> string -> session)
  (st : state) :
  (forall a, In a namespaced_actions ->
     Forall (has_namespace_flag (namespace (self st)))
            (commands (events (invoke spawn terminal a st)))) /\
  (forall cmd, In cmd (commands (events (invoke spawn terminal K8sNodes st))) ->
     cmd = "kubectl get nodes -o wide" \/
     cmd = "kubectl get nodes -o jsonpath='{range .items[*]}{.metadata.name}: "
             ++ "{.status.conditions[-1].type}={.status.conditions[-1].status}{"
             ++ DQ ++ BACKSLASH ++ "n" ++ DQ ++ "}{end}'") /\
  (forall cmd, In cmd (commands (events (invoke spawn terminal ChangeNamespace st))) ->
     cmd = "kubectl get ns --no-headers | awk '{print $1}'") /\
  (forall rest,
     namespace (self st) = "default" ->
     stdin st = "staging" :: rest ->
     value (invoke spawn terminal ChangeNamespace st) = Return tt ->
     let st' := final (invoke spawn terminal ChangeNamespace st) in
     namespace (self st') = "staging" /\
     exists cmd,
       commands (events (invoke spawn terminal K8sPodStatus st')) = [cmd] /\
       cmd = "kubectl get pods -n staging -o wide" /\
       Py.contains "staging" cmd = true /\
       Py.contains "default" cmd = false).
Proof.
  split; [intros a Ha; now apply namespaced_actions_flagged|].
  destruct st as [[host ns] inp clk].
  split; [|split].
  - cbn [invoke]. unfold k8s_nodes. exec spawn terminal;
      cbn; intros cmd H; intuition congruence.
  - cbn [invoke]. unfold change_namespace. exec spawn terminal;
      cbn; intros cmd H; intuition congruence.
  - intros rest Hns Hin. cbn in Hns, Hin. subst ns inp.
    cbn [invoke]. unfold change_namespace, k8s_pod_status.
    exec spawn terminal; try discriminate; intros _;
      change (Py.strip "staging") with "staging";
      (split; [reflexivity|]);
      exec spawn terminal;
      cbn [commands events print];
      (eexists; split; [reflexivity|]; repeat split; reflexivity).
Qed.

(** C6 (as worded) fails: the node-status commands carry no namespace
    flag. *)
Lemma node_status_has_no_namespace_flag :
  ~ always_namespaced (fun _ _ => Exits 1 0 [(Stdout, "node-1 Ready")])
      (fun _ _ => Ends 0)
      {| self := {| remote_host := None; namespace := "default" |};
         stdin := [];
         clock := 0 |}.
Proof.
  intros H. specialize (H K8sNodes).
  assert (Hin : In K8sNodes kubernetes_actions) by (cbn; tauto).
  specialize (H Hin).
  match type of H with
  | Forall _ ?l => let l' := eval vm_compute in l in change l with l' in H
  end.
  inversion H as [|cmd cmds Hflag _]. subst.
  apply has_flag_contains in Hflag. vm_compute in Hflag. discriminate.
Qed.

(** * What the methods do to the session *)

Section SessionFacts.

Variable spawn : nat -> string -> process.
Variable terminal : nat -> string -> session.

Lemma bind_Return {A B} (m : M A) (f : A -> M B) (st : state) (a : A) :
  value (m st) = Return a ->
  bind m f st = emit (events (m st)) (f a (final (m st))).
Proof. intros H. unfold bind, emit. now rewrite H. Qed.

Lemma bind_ext {A B} (m : M A) (f g : A -> M B) (st : state) :
  (forall a st', f a st' = g a st') -> bind m f st = bind m g st.
Proof.
  intros H. unfold bind. destruct (value (m st)); [|reflexivity..].
  now rewrite H.
Qed.

Lemma bind_value_Return {A B} (m : M A) (f : A -> M B) (st : state) (b : B) :
  value (bind m f st) = Return b ->
  exists a, value (m st) = Return a /\ value (f a (final (m st))) = Return b.
Proof.
  unfold bind. destruct (value (m st)) as [a|e|]; cbn; try discriminate.
  intros H. now exists a.
Qed.

Lemma keeps_ret {A} (a : A) : keeps_self (ret a).
Proof. now intros st. Qed.

Lemma keeps_bind {A B} (m : M A) (f : A -> M B) :
  keeps_self m -> (forall a, keeps_self (f a)) -> keeps_self (bind m f).
Proof.
  intros Hm Hf st. unfold bind.
  destruct (value (m st)) as [a|e|]; cbn; [|apply Hm..].
  rewrite Hf. apply Hm.
Qed.

Lemma keeps_print (s : string) : keeps_self (print s).
Proof. now intros st. Qed.

Lemma keeps_input (p : string) : keeps_self (input p).
Proof. intros st. unfold input. now destruct (stdin st). Qed.

Lemma keeps_get_namespace : keeps_self get_namespace.
Proof. now intros st. Qed.

Lemma keeps_get_remote_host : keeps_self get_remote_host.
Proof. now intros st. Qed.

Lemma keeps_run_cmd (cmd : string) : keeps_self (run_cmd spawn cmd).
Proof. now intros st. Qed.

Lemma keeps_run_interactive_cmd (cmd : string) :
  keeps_self (run_interactive_cmd terminal cmd).
Proof. now intros st. Qed.

Lemma keeps_for_each {A} (xs : list A) (body : A -> M unit) :
  (forall x, keeps_self (body x)) -> keeps_self (for_each xs body).
Proof.
  intros H. induction xs as [|x xs IH]; cbn [for_each].
  - apply keeps_ret.
  - apply keeps_bind; [apply H|intros _; exact IH].
Qed.

End SessionFacts.

Create HintDb session.

#[local] Hint Resolve keeps_ret keeps_print keeps_input keeps_get_namespace
  keeps_get_remote_host keeps_run_cmd keeps_run_interactive_cmd : session.

(** Decomposes a method along its statements. *)
Ltac keeps :=
  repeat (cbv beta zeta;
          match goal with
          | |- keeps_self (bind _ _) => apply keeps_bind; [|intros]
          | |- keeps_self (for_each _ _) => apply keeps_for_each; intros
          | |- keeps_self (if ?b then _ else _) => destruct b
          | |- keeps_self (match ?x with _ => _ end) => destruct x
          | |- keeps_self _ => solve [auto with session]
          end).

Ltac unfold_actions :=
  unfold ping_test, port_scan, dns_test, traceroute, show_connections,
    interface_stats, tcpdump_capture, top_by_cpu, top_by_memory, find_process,
    strace_process, open_files, thread_analysis, zombie_processes,
    journalctl_menu, auth_logs, dmesg_logs, search_logs, failed_services,
    recent_errors, memory_details, disk_usage, memory_pressure, cpu_info,
    io_stats, k8s_pod_status, k8s_logs, k8s_exec, k8s_describe,
    k8s_port_forward, k8s_events, k8s_nodes, print_section, print_header.

Section NamespaceFacts.

Variable spawn : nat -> string -> process.
Variable terminal : nat -> string -> session.

(** Every leaf action but change-namespace leaves [self] as it is. *)
Lemma leaf_keeps_self (a : leaf) :
  a <> ChangeNamespace -> keeps_self (invoke spawn terminal a).
Proof.
  intros Ha. destruct a; try (now elim Ha); cbn [invoke]; unfold_actions; keeps.
Qed.

Lemma keeps_tracks {A} (m : M A) : keeps_self m -> tracks_namespace m.
Proof. intros H st. rewrite H. split; [reflexivity|now left]. Qed.

Lemma tracks_bind {A B} (m : M A) (f : A -> M B) :
  tracks_namespace m -> (forall a, tracks_namespace (f a)) ->
  tracks_namespace (bind m f).
Proof.
  intros Hm Hf st. unfold bind.
  destruct (value (m st)) as [a|e|]; cbn; [|apply Hm..].
  destruct (Hm st) as [Hh Hn]. destruct (Hf a (final (m st))) as [Hh' Hn'].
  split; [congruence|].
  destruct Hn' as [Hsame|(l & Hin & Hl)].
  - rewrite Hsame. destruct Hn as [Hn|(l & Hin & Hl)]; [now left|].
    right. exists l. split; [apply in_or_app; now left|exact Hl].
  - right. exists l. split; [apply in_or_app; now right|exact Hl].
Qed.

(** Change-namespace stores the answer, stripped, whatever it is. *)
Lemma change_namespace_tracks : tracks_namespace (change_namespace spawn).
Proof.
  intros [[host ns] inp clk]. unfold change_namespace.
  exec spawn terminal; cbn; split; try reflexivity; try (now left).
  right. eexists. split; [|reflexivity]. unfold namespace_prompt. cbn. tauto.
Qed.

Ltac tracks :=
  repeat (cbv beta zeta;
          match goal with
          | |- tracks_namespace (change_namespace _) =>
              apply change_namespace_tracks
          | |- tracks_namespace (bind _ _) => apply tracks_bind; [|intros]
          | |- tracks_namespace (if ?b then _ else _) => destruct b
          | |- tracks_namespace _ => apply keeps_tracks; solve [keeps]
          end).

Lemma screen_tracks (m : menu) : tracks_namespace (screen spawn terminal m).
Proof.
  destruct m; cbn [screen];
    unfold main_menu, network_menu, process_menu, log_menu, resource_menu,
      k8s_menu;
    unfold_actions; tracks.
Qed.

Lemma step_tracks (stack : list menu) :
  tracks_namespace (step spawn terminal stack).
Proof.
  destruct stack as [|m callers]; cbn [step].
  - apply keeps_tracks, keeps_ret.
  - apply tracks_bind; [apply screen_tracks|].
    intros c. apply keeps_tracks, keeps_ret.
Qed.

Lemma navigate_tracks (fuel : nat) (stack : list menu) :
  tracks_namespace (navigate spawn terminal fuel stack).
Proof.
  revert stack. induction fuel as [|fuel IH]; intros [|m callers];
    cbn [navigate]; try (apply keeps_tracks, keeps_ret).
  apply tracks_bind; [apply step_tracks|exact IH].
Qed.

End NamespaceFacts.

(** C5 (as amended).  The namespace starts as the start-up value,
    "default" unless [-n] is given, and only change-namespace changes it,
    to the operator's answer with surrounding blanks removed and with no
    fallback: after any number of screens it is the start-up value or
    such an answer.  So it is not empty provided the start-up value is
    not empty and no answer to the change-namespace prompt is blank. *)
Theorem namespace_invariant
  (spawn : nat -> string -> process) (terminal : nat -> string -> session)
  (fuel : nat) (a : argv) (typed : list string) :
  let r := navigate spawn terminal fuel [MainMenu] (boot a typed) in
  namespace_arg (parse_args a) <> "" ->
  (forall answer, In (Prompt namespace_prompt (Some answer)) (events r) ->
                  Py.strip answer <> "") ->
  (opt_namespace a = None -> namespace (self (boot a typed)) = "default") /\
  (namespace (self (final r)) = namespace_arg (parse_args a) \/
   exists answer, In (Prompt namespace_prompt (Some answer)) (events r) /\
                  namespace (self (final r)) = Py.strip answer) /\
  namespace (self (final r)) <> "".
Proof.
  intros r Hstart Hanswers.
  assert (Hr : namespace (self (final r)) = namespace_arg (parse_args a) \/
               exists answer,
                 In (Prompt namespace_prompt (Some answer)) (events r) /\
                 namespace (self (final r)) = Py.strip answer).
  { destruct (navigate_tracks spawn terminal fuel [MainMenu] (boot a typed))
      as [_ H]. exact H. }
  split; [|split].
  - intros Hnone. cbn. now rewrite Hnone.
  - exact Hr.
  - destruct Hr as [->|(answer & Hin & ->)]; [exact Hstart|].
    now apply Hanswers.
Qed.

Lemma namespace_invariant_witness :
  namespace
    (self (final (navigate (fun _ _ => Exits 1 0 [(Stdout, "default" ++ LF ++ "staging")])
                           (fun _ _ => Ends 0) 3 [MainMenu]
                           (boot {| opt_remote := None; opt_namespace := None |}
                                 ["5"; "8"; " staging "; "b"; "q"]))))
  <> "".
Proof.
  refine (proj2 (proj2 (namespace_invariant
                          (fun _ _ => Exits 1 0 [(Stdout, "default" ++ LF ++ "staging")])
                          (fun _ _ => Ends 0) 3
                          {| opt_remote := None; opt_namespace := None |}
                          ["5"; "8"; " staging "; "b"; "q"] _ _))).
  - vm_compute. discriminate.
  - intros answer H. vm_compute in H.
    repeat (destruct H as [H|H]; [try discriminate H|]); [|destruct H].
    injection H as <-. vm_compute. discriminate.
Defined.

(** C5 (as worded) fails: an empty answer to the change-namespace prompt
    leaves the namespace empty; there is no fallback to "default". *)
Lemma namespace_can_become_empty :
  ~ namespace_never_empty (fun _ _ => Exits 1 0 [(Stdout, "default")])
      (fun _ _ => Ends 0) ["5"; "8"; ""].
Proof.
  intros H. specialize (H 2). vm_compute in H. now apply H.
Qed.

(** * Navigation *)

Lemma lower_single (s : string) (c : ascii) :
  Py.lower s = String c "" ->
  exists c', s = String c' "" /\ Py.lower_char c' = c.
Proof.
  destruct s as [|c' [|c'' s]]; cbn; try discriminate.
  intros H. injection H as H. now exists c'.
Qed.

Lemma lower_char_b (c : ascii) :
  Py.lower_char c = "b"%char -> c = "b"%char \/ c = "B"%char.
Proof.
  destruct c as [[] [] [] [] [] [] [] []]; vm_compute; intros H;
    try discriminate H; auto.
Qed.

Lemma lower_char_q (c : ascii) :
  Py.lower_char c = "q"%char -> c = "q"%char \/ c = "Q"%char.
Proof.
  destruct c as [[] [] [] [] [] [] [] []]; vm_compute; intros H;
    try discriminate H; auto.
Qed.

Lemma lower_b (s : string) : Py.lower s = "b" -> s = "b" \/ s = "B".
Proof.
  intros H. apply lower_single in H as (c & -> & H).
  apply lower_char_b in H as [->| ->]; auto.
Qed.

Lemma lower_q (s : string) : Py.lower s = "q" -> s = "q" \/ s = "Q".
Proof.
  intros H. apply lower_single in H as (c & -> & H).
  apply lower_char_q in H as [->| ->]; auto.
Qed.

Section NavigationFacts.

Variable spawn : nat -> string -> process.
Variable terminal : nat -> string -> session.

(** In a menu other than the main one, "b" leaves the menu: one line is
    read, nothing is run. *)
Lemma submenu_back (m : menu) (st : state) (line : string) (rest : list string) :
  m <> MainMenu -> stdin st = line :: rest -> Py.lower (Py.strip line) = "b" ->
  value (screen spawn terminal m st) = Return Break /\
  final (screen spawn terminal m st) = {| self := self st; stdin := rest; clock := clock st |}.
Proof.
  intros Hm Hin Hb. destruct st as [[host ns] inp clk]. cbn in Hin. subst inp.
  apply lower_b in Hb.
  destruct m; try (now elim Hm); cbn [screen];
    unfold network_menu, process_menu, log_menu, resource_menu, k8s_menu,
      print_section;
    run_screen; destruct Hb as [Hb|Hb]; rewrite Hb; split; reflexivity.
Qed.

(** The main menu reads one line and runs nothing; it leaves its loop
    only on "q" and opens only the five other menus. *)
Lemma main_menu_run (st : state) (line : string) (rest : list string) :
  stdin st = line :: rest ->
  final (main_menu st) = {| self := self st; stdin := rest; clock := clock st |} /\
  exists c, value (main_menu st) = Return c /\
    (c = Break -> Py.lower (Py.strip line) = "q") /\
    (forall m, c = Call m -> m <> MainMenu).
Proof.
  intros Hin. destruct st as [[host ns] inp clk]. cbn in Hin. subst inp.
  unfold main_menu, print_header. run_screen. split_tests; run_screen;
    (split; [reflexivity|]); eexists; (split; [reflexivity|]);
    split; try discriminate; try (intros m [= <-]; discriminate).
  all: intros _; now apply String.eqb_eq.
Qed.

Lemma main_menu_quit (st : state) (line : string) (rest : list string) :
  stdin st = line :: rest -> Py.lower (Py.strip line) = "q" ->
  value (main_menu st) = Return Break /\
  final (main_menu st) = {| self := self st; stdin := rest; clock := clock st |}.
Proof.
  intros Hin Hq. destruct st as [[host ns] inp clk]. cbn in Hin. subst inp.
  apply lower_q in Hq. unfold main_menu, print_header. run_screen.
  destruct Hq as [Hq|Hq]; rewrite Hq; split; reflexivity.
Qed.

(** "b" means nothing to the main menu: the menu is shown again. *)
Lemma main_menu_back (st : state) (line : string) (rest : list string) :
  stdin st = line :: rest -> Py.lower (Py.strip line) = "b" ->
  value (main_menu st) = Return Continue /\
  final (main_menu st) = {| self := self st; stdin := rest; clock := clock st |}.
Proof.
  intros Hin Hb. destruct st as [[host ns] inp clk]. cbn in Hin. subst inp.
  apply lower_b in Hb. unfold main_menu, print_header. run_screen.
  destruct Hb as [Hb|Hb]; rewrite Hb; split; reflexivity.
Qed.

Lemma opens_nothing_bind {A} (m : M A) (f : A -> M control) :
  (forall a, opens_nothing (f a)) -> opens_nothing (bind m f).
Proof.
  intros Hf st c H. apply bind_value_Return in H as (a & _ & H).
  now apply (Hf a (final (m st))).
Qed.

Lemma opens_nothing_Continue : opens_nothing (ret Continue).
Proof. intros st c [= <-]. now left. Qed.

Lemma opens_nothing_Break : opens_nothing (ret Break).
Proof. intros st c [= <-]. now right. Qed.

Ltac opens :=
  repeat (cbv beta zeta;
          match goal with
          | |- opens_nothing (bind _ _) => apply opens_nothing_bind; intros
          | |- opens_nothing (if ?b then _ else _) => destruct b
          | |- opens_nothing (ret Continue) => apply opens_nothing_Continue
          | |- opens_nothing (ret Break) => apply opens_nothing_Break
          end).

(** No menu but the main one opens another menu. *)
Lemma submenu_opens_nothing (m : menu) :
  m <> MainMenu -> opens_nothing (screen spawn terminal m).
Proof.
  intros Hm. destruct m; try (now elim Hm); cbn [screen];
    unfold network_menu, process_menu, log_menu, resource_menu, k8s_menu; opens.
Qed.

(** One step is one pass through the screen of the innermost menu. *)
Lemma step_cons (m : menu) (callers : list menu) (st : state) :
  step spawn terminal (m :: callers) st
  = bind (screen spawn terminal m)
         (fun c => ret (match c with
                        | Continue => m :: callers
                        | Break => callers
                        | Call m' => m' :: m :: callers
                        end)) st.
Proof. reflexivity. Qed.

Lemma step_value (m : menu) (callers : list menu) (st : state) (c : control) :
  value (screen spawn terminal m st) = Return c ->
  value (step spawn terminal (m :: callers) st)
  = Return (match c with
            | Continue => m :: callers
            | Break => callers
            | Call m' => m' :: m :: callers
            end) /\
  final (step spawn terminal (m :: callers) st)
  = final (screen spawn terminal m st).
Proof.
  intros Hc. rewrite step_cons. unfold bind. rewrite Hc. split; reflexivity.
Qed.

Lemma step_value_inv (m : menu) (callers stack : list menu) (st : state) :
  value (step spawn terminal (m :: callers) st) = Return stack ->
  exists c, value (screen spawn terminal m st) = Return c /\
            stack = match c with
                    | Continue => m :: callers
                    | Break => callers
                    | Call m' => m' :: m :: callers
                    end.
Proof.
  intros H. rewrite step_cons in H.
  apply bind_value_Return in H as (c & Hc & H).
  exists c. split; [exact Hc|]. now injection H as <-.
Qed.

Lemma step_well_stacked (stack stack' : list menu) (st : state) :
  well_stacked stack -> value (step spawn terminal stack st) = Return stack' ->
  well_stacked stack'.
Proof.
  intros [->|[->|(m & Hm & ->)]] H.
  - injection H as <-. now left.
  - apply step_value_inv in H as (c & Hc & ->).
    change (screen spawn terminal MainMenu st) with (main_menu st) in Hc.
    destruct c as [| |m].
    + right. now left.
    + now left.
    + right. right. exists m. split; [|reflexivity].
      destruct (stdin st) as [|line rest] eqn:Hin.
      * destruct st as [[host ns] inp clk]. cbn in Hin. subst inp.
        discriminate Hc.
      * destruct (main_menu_run st line rest Hin) as (_ & c & Hc' & _ & Hcall).
        rewrite Hc in Hc'. injection Hc' as <-. now apply Hcall.
  - apply step_value_inv in H as (c & Hc & ->).
    destruct (submenu_opens_nothing m Hm st c Hc) as [->| ->].
    + right. right. now exists m.
    + right. now left.
Qed.

Lemma navigate_well_stacked (fuel : nat) (stack stack' : list menu) (st : state) :
  well_stacked stack -> value (navigate spawn terminal fuel stack st) = Return stack' ->
  well_stacked stack'.
Proof.
  revert stack st. induction fuel as [|fuel IH]; intros [|m callers] st Hw H;
    cbn [navigate] in H; try (injection H as <-; exact Hw).
  apply bind_value_Return in H as (s & Hs & H).
  apply (IH s (final (step spawn terminal (m :: callers) st))); [|exact H].
  now apply (step_well_stacked (m :: callers) s st).
Qed.

(** Since one menu at most is open above the main one, the stack never
    holds more than two loops. *)
Lemma well_stacked_depth (stack : list menu) :
  well_stacked stack -> length stack <= 2.
Proof. intros [->|[->|(m & _ & ->)]]; cbn; lia. Qed.

(** Running [n + m] screens is running [n] and then [m]. *)
Lemma navigate_add (n m : nat) (stack : list menu) (st : state) :
  navigate spawn terminal (n + m) stack st = bind (navigate spawn terminal n stack) (navigate spawn terminal m) st.
Proof.
  revert stack st. induction n as [|n IH]; intros stack st.
  - cbn [Nat.add]. destruct stack as [|x callers]; cbn [navigate].
    + rewrite ret_bind. destruct m; cbn; reflexivity.
    + rewrite ret_bind. unfold emit. cbn [app].
      now destruct (navigate spawn terminal m (x :: callers) st).
  - destruct stack as [|x callers].
    + cbn [Nat.add navigate]. rewrite ret_bind. now destruct m.
    + cbn [Nat.add navigate]. rewrite bind_assoc.
      apply bind_ext. intros a st'. apply IH.
Qed.

End NavigationFacts.

Section NavigatorRuns.

Variable spawn : nat -> string -> process.
Variable terminal : nat -> string -> session.

Lemma navigate_nil (fuel : nat) (st : state) :
  navigate spawn terminal fuel [] st = ret [] st.
Proof. now destruct fuel. Qed.

Lemma navigate_succ (fuel : nat) (m : menu) (callers : list menu) (st : state) :
  navigate spawn terminal (S fuel) (m :: callers) st
  = bind (step spawn terminal (m :: callers)) (navigate spawn terminal fuel) st.
Proof. reflexivity. Qed.

Lemma navigate_zero (stack : list menu) (st : state) :
  navigate spawn terminal 0 stack st = ret stack st.
Proof. now destruct stack. Qed.

(** One step of the main menu on "q". *)
Lemma step_quit (st : state) (line : string) (rest : list string) :
  stdin st = line :: rest -> Py.lower (Py.strip line) = "q" ->
  value (step spawn terminal [MainMenu] st) = Return [] /\
  final (step spawn terminal [MainMenu] st)
  = {| self := self st; stdin := rest; clock := clock st |}.
Proof.
  intros Hin Hq. destruct (main_menu_quit st line rest Hin Hq) as [Hv Hf].
  destruct (step_value spawn terminal MainMenu [] st Break Hv) as [Hv' Hf'].
  rewrite Hv', Hf'. split; [reflexivity|exact Hf].
Qed.

(** One step of the main menu on "b". *)
Lemma step_back_at_root (st : state) (line : string) (rest : list string) :
  stdin st = line :: rest -> Py.lower (Py.strip line) = "b" ->
  value (step spawn terminal [MainMenu] st) = Return [MainMenu] /\
  final (step spawn terminal [MainMenu] st)
  = {| self := self st; stdin := rest; clock := clock st |}.
Proof.
  intros Hin Hb. destruct (main_menu_back st line rest Hin Hb) as [Hv Hf].
  destruct (step_value spawn terminal MainMenu [] st Continue Hv) as [Hv' Hf'].
  rewrite Hv', Hf'. split; [reflexivity|exact Hf].
Qed.

(** One step of another menu on "b". *)
Lemma step_back (m : menu) (callers : list menu) (st : state)
  (line : string) (rest : list string) :
  m <> MainMenu -> stdin st = line :: rest -> Py.lower (Py.strip line) = "b" ->
  value (step spawn terminal (m :: callers) st) = Return callers /\
  final (step spawn terminal (m :: callers) st)
  = {| self := self st; stdin := rest; clock := clock st |}.
Proof.
  intros Hm Hin Hb.
  destruct (submenu_back spawn terminal m st line rest Hm Hin Hb) as [Hv Hf].
  destruct (step_value spawn terminal m callers st Break Hv) as [Hv' Hf'].
  rewrite Hv', Hf'. split; [reflexivity|exact Hf].
Qed.

(** One step of the main menu that opens a menu: a line is read, the
    menu opened is not the main one. *)
Lemma step_open (st : state) (line : string) (rest : list string)
  (stack : list menu) :
  stdin st = line :: rest ->
  value (step spawn terminal [MainMenu] st) = Return stack ->
  length stack = 2 ->
  (exists m, m <> MainMenu /\ stack = [m; MainMenu]) /\
  final (step spawn terminal [MainMenu] st)
  = {| self := self st; stdin := rest; clock := clock st |}.
Proof.
  intros Hin Hv Hlen.
  destruct (main_menu_run st line rest Hin) as (Hf & c & Hc & _ & Hcall).
  destruct (step_value spawn terminal MainMenu [] st c Hc) as [Hv' Hf'].
  rewrite Hv' in Hv. injection Hv as <-. rewrite Hf'.
  split; [|exact Hf].
  destruct c as [| |m]; try discriminate Hlen.
  exists m. split; [now apply Hcall|reflexivity].
Qed.

(** How [main] ends is read off the run of the navigator. *)
Lemma main_exit (fuel : nat) (a : argv) (typed : list string) :
  snd (fst (main spawn terminal fuel a typed))
  = match value (navigate spawn terminal fuel [MainMenu] (boot a typed)) with
    | Return [] => Exited 0
    | Return stack => Still_running stack
    | Raise e => Uncaught e
    | Hang => Stuck
    end.
Proof. reflexivity. Qed.

Lemma main_final (fuel : nat) (a : argv) (typed : list string) :
  snd (main spawn terminal fuel a typed)
  = final (navigate spawn terminal fuel [MainMenu] (boot a typed)).
Proof. reflexivity. Qed.

(** The run of the navigator on "q" at the main menu. *)
Lemma navigate_quit (fuel : nat) (st : state) (line : string) (rest : list string) :
  stdin st = line :: rest -> Py.lower (Py.strip line) = "q" ->
  value (navigate spawn terminal (S fuel) [MainMenu] st) = Return [] /\
  final (navigate spawn terminal (S fuel) [MainMenu] st)
  = {| self := self st; stdin := rest; clock := clock st |}.
Proof.
  intros Hin Hq. destruct (step_quit st line rest Hin Hq) as [Hv Hf].
  rewrite navigate_succ, (bind_Return _ _ _ _ Hv), navigate_nil, Hf.
  split; reflexivity.
Qed.

End NavigatorRuns.

(** C8.  When the navigator is at the main menu and reads "q", the loop
    ends: the run is over whatever fuel is left, the lines after "q"
    stay unread and no process is started; [main] then returns and the
    console exits with status 0.  Whenever the console exits, its status
    is 0, whatever the exit codes of the commands it ran. *)
Theorem quit_at_root
  (spawn : nat -> string -> process) (terminal : nat -> string -> session)
  (fuel : nat) (st : state) (line : string) (rest : list string) :
  stdin st = line :: rest ->
  Py.lower (Py.strip line) = "q" ->
  let r := navigate spawn terminal (S fuel) [MainMenu] st in
  value r = Return [] /\
  final r = {| self := self st; stdin := rest; clock := clock st |} /\
  (forall n a typed,
      value (navigate spawn terminal n [MainMenu] (boot a typed))
      = Return [MainMenu] ->
      final (navigate spawn terminal n [MainMenu] (boot a typed)) = st ->
      snd (fst (main spawn terminal (n + S fuel) a typed)) = Exited 0 /\
      stdin (snd (main spawn terminal (n + S fuel) a typed)) = rest) /\
  (forall fuel' a typed code,
      snd (fst (main spawn terminal fuel' a typed)) = Exited code ->
      code = 0%Z).
Proof.
  intros Hin Hq r.
  destruct (navigate_quit spawn terminal fuel st line rest Hin Hq) as [Hrv Hrf].
  split; [exact Hrv|]. split; [exact Hrf|]. split.
  - intros n a typed Hn Hst.
    rewrite main_exit, main_final, navigate_add, (bind_Return _ _ _ _ Hn), Hst.
    rewrite emit_value, emit_final, Hrv, Hrf. split; reflexivity.
  - intros fuel' a typed code. rewrite main_exit.
    destruct (value (navigate spawn terminal fuel' [MainMenu] (boot a typed)))
      as [[|m stack]|e|]; intros [= <-]. reflexivity.
Qed.

Lemma quit_at_root_witness :
  snd (fst (main (fun _ _ => Exits 1 3 [(Stderr, "not found")])
                 (fun _ _ => Ends 0) (2 + 5)
                 {| opt_remote := None; opt_namespace := None |}
                 ["2"; "b"; " Q"; "1"; "q"]))
  = Exited 0 /\
  stdin (snd (main (fun _ _ => Exits 1 3 [(Stderr, "not found")])
                   (fun _ _ => Ends 0) (2 + 5)
                   {| opt_remote := None; opt_namespace := None |}
                   ["2"; "b"; " Q"; "1"; "q"]))
  = ["1"; "q"].
Proof.
  refine (proj1 (proj2 (proj2
            (quit_at_root (fun _ _ => Exits 1 3 [(Stderr, "not found")])
               (fun _ _ => Ends 0) 4
               {| self := {| remote_host := None; namespace := "default" |};
                  stdin := [" Q"; "1"; "q"];
                  clock := 0 |}
               " Q" ["1"; "q"] eq_refl _)))
            2 {| opt_remote := None; opt_namespace := None |}
            ["2"; "b"; " Q"; "1"; "q"] _ _).
  - vm_compute. reflexivity.
  - vm_compute. reflexivity.
  - vm_compute. reflexivity.
Defined.

(** C7.  From the main menu, [k] keys that each open a menu followed by
    [k] times "b" bring the navigator back to the main menu alone, with
    the session as it was and the lines that follow unread; one more "b"
    read there shows the main menu again and changes nothing.  (That the
    [k] keys each open a menu is stated by the depth of the stack after
    them, [k + 1].) *)
Theorem back_returns_to_root
  (spawn : nat -> string -> process) (terminal : nat -> string -> session)
  (k : nat) (keys rest : list string) (st : state) :
  length keys = k ->
  stdin st = (keys ++ repeat "b" k ++ rest)%list ->
  (exists stack,
      value (navigate spawn terminal k [MainMenu] st) = Return stack /\
      length stack = S k) ->
  let r := navigate spawn terminal (k + k) [MainMenu] st in
  value r = Return [MainMenu] /\
  self (final r) = self st /\
  stdin (final r) = rest /\
  forall rest', rest = "b" :: rest' ->
    let r' := step spawn terminal [MainMenu] (final r) in
    value r' = Return [MainMenu] /\
    self (final r') = self st /\
    stdin (final r') = rest'.
Proof.
  intros Hlen Hin (stack & Hstack & Hdepth) r.
  assert (Hk : k <= 1).
  { assert (Hw : well_stacked stack).
    { apply (navigate_well_stacked spawn terminal k [MainMenu] stack st);
        [right; now left|exact Hstack]. }
    apply well_stacked_depth in Hw. lia. }
  assert (Hr : value r = Return [MainMenu] /\ self (final r) = self st /\
               stdin (final r) = rest).
  { subst r. destruct k as [|[|k]]; [| |lia].
    - destruct keys; [|discriminate Hlen]. cbn in Hin. cbn. auto.
    - destruct keys as [|key [|? ?]]; try discriminate Hlen.
      cbn [app repeat] in Hin. cbn [Nat.add].
      rewrite navigate_succ in Hstack |- *.
      apply bind_value_Return in Hstack as (s & Hs & Hret).
      rewrite navigate_zero in Hret. injection Hret as ->.
      destruct (step_open spawn terminal st key ("b" :: rest) stack Hin Hs Hdepth)
        as ((m & Hm & ->) & Hf).
      rewrite (bind_Return _ _ _ _ Hs), Hf, navigate_succ.
      destruct (step_back spawn terminal m [MainMenu]
                  {| self := self st; stdin := "b" :: rest; clock := clock st |}
                  "b" rest Hm eq_refl eq_refl) as [Hv' Hf'].
      rewrite (bind_Return _ _ _ _ Hv'), Hf', navigate_zero.
      unfold emit, ret. cbn [value final self stdin]. auto. }
  destruct Hr as (Hv & Hs & Hi).
  split; [exact Hv|]. split; [exact Hs|]. split; [exact Hi|].
  intros rest' Hrest r'. subst r'.
  destruct (step_back_at_root spawn terminal (final r) "b" rest') as [Hv' Hf'];
    [congruence|reflexivity|].
  rewrite Hv', Hf'. cbn [self stdin]. auto.
Qed.

Lemma back_returns_to_root_witness :
  value (navigate (fun _ _ => Exits 1 0 []) (fun _ _ => Ends 0) (1 + 1) [MainMenu]
           {| self := {| remote_host := Some "host1"; namespace := "default" |};
              stdin := (["3"] ++ repeat "b" 1 ++ ["b"; "q"])%list;
              clock := 0 |})
  = Return [MainMenu].
Proof.
  refine (proj1 (back_returns_to_root (fun _ _ => Exits 1 0 []) (fun _ _ => Ends 0)
                   1 ["3"] ["b"; "q"]
                   {| self := {| remote_host := Some "host1"; namespace := "default" |};
                      stdin := (["3"] ++ repeat "b" 1 ++ ["b"; "q"])%list;
                      clock := 0 |} eq_refl eq_refl _)).
  exists [LogMenu; MainMenu]. split; vm_compute; reflexivity.
Defined.

(** * Every run ends

    Each screen reads a line before it returns and nothing puts lines
    back, so a run takes at most one screen per line typed, plus the one
    that finds the input exhausted. *)

Section Termination.

Variable spawn : nat -> string -> process.
Variable terminal : nat -> string -> session.

Lemma no_more_ret {A} (a : A) : no_more_input (ret a).
Proof. intros st. cbn. lia. Qed.

Lemma no_more_bind {A B} (m : M A) (f : A -> M B) :
  no_more_input m -> (forall a, no_more_input (f a)) -> no_more_input (bind m f).
Proof.
  intros Hm Hf st. unfold bind.
  destruct (value (m st)) as [a|e|]; cbn [final]; [|apply Hm..].
  specialize (Hm st). specialize (Hf a (final (m st))). lia.
Qed.

Lemma no_more_print (s : string) : no_more_input (print s).
Proof. intros st. cbn. lia. Qed.

Lemma no_more_input_input (p : string) : no_more_input (input p).
Proof.
  intros st. unfold input.
  destruct (stdin st) as [|line rest] eqn:E; cbn [final stdin]; rewrite ?E; cbn; lia.
Qed.

Lemma no_more_get_namespace : no_more_input get_namespace.
Proof. intros st. cbn. lia. Qed.

Lemma no_more_get_remote_host : no_more_input get_remote_host.
Proof. intros st. cbn. lia. Qed.

Lemma no_more_set_namespace (ns : string) : no_more_input (set_namespace ns).
Proof. intros st. cbn. lia. Qed.

Lemma no_more_run_cmd (cmd : string) : no_more_input (run_cmd spawn cmd).
Proof. intros st. cbn. lia. Qed.

Lemma no_more_run_interactive_cmd (cmd : string) :
  no_more_input (run_interactive_cmd terminal cmd).
Proof. intros st. cbn [run_interactive_cmd final stdin]. rewrite length_skipn. lia. Qed.

Lemma no_more_for_each {A} (xs : list A) (body : A -> M unit) :
  (forall x, no_more_input (body x)) -> no_more_input (for_each xs body).
Proof.
  intros H. induction xs as [|x xs IH]; cbn [for_each].
  - apply no_more_ret.
  - apply no_more_bind; [apply H|intros _; exact IH].
Qed.

Lemma reads_after {A B} (m : M A) (f : A -> M B) :
  no_more_input m -> (forall a, reads_a_line (f a)) -> reads_a_line (bind m f).
Proof.
  intros Hm Hf st b H. pose proof H as H'.
  apply bind_value_Return in H' as (a & Ha & Hb).
  rewrite (bind_Return _ _ _ _ Ha). cbn [emit final].
  specialize (Hm st). specialize (Hf a _ _ Hb). lia.
Qed.

Lemma reads_input {B} (p : string) (f : string -> M B) :
  (forall line, no_more_input (f line)) -> reads_a_line (bind (input p) f).
Proof.
  intros Hf st b. rewrite input_bind.
  destruct (stdin st) as [|line rest] eqn:E; [discriminate|].
  intros _. cbn [emit final length].
  specialize (Hf line {| self := self st; stdin := rest; clock := clock st |}).
  cbn [stdin] in Hf. lia.
Qed.

End Termination.

Create HintDb input_lines.

#[local] Hint Resolve no_more_ret no_more_print no_more_input_input
  no_more_get_namespace no_more_get_remote_host no_more_set_namespace
  no_more_run_cmd no_more_run_interactive_cmd : input_lines.

Ltac no_more :=
  repeat (cbv beta zeta;
          match goal with
          | |- no_more_input (bind _ _) => apply no_more_bind; [|intros]
          | |- no_more_input (for_each _ _) => apply no_more_for_each; intros
          | |- no_more_input (if ?b then _ else _) => destruct b
          | |- no_more_input (match ?x with _ => _ end) => destruct x
          | |- no_more_input _ => solve [auto with input_lines]
          end).

Ltac reads :=
  repeat (cbv beta zeta;
          match goal with
          | |- reads_a_line (bind (input _) _) => apply reads_input; intros
          | |- reads_a_line (bind _ _) => apply reads_after; [|intros]
          end).

Section RunsEnd.

Variable spawn : nat -> string -> process.
Variable terminal : nat -> string -> session.

Lemma screen_reads_a_line (m : menu) : reads_a_line (screen spawn terminal m).
Proof.
  destruct m; cbn [screen];
    unfold main_menu, network_menu, process_menu, log_menu, resource_menu,
      k8s_menu;
    unfold_actions; unfold change_namespace; reads; no_more.
Qed.

Lemma step_reads_a_line (m : menu) (callers : list menu) :
  reads_a_line (step spawn terminal (m :: callers)).
Proof.
  intros st stack H.
  apply step_value_inv in H as (c & Hc & _).
  destruct (step_value spawn terminal m callers st c Hc) as [_ Hf].
  rewrite Hf. now apply (screen_reads_a_line m st c).
Qed.

(** With more fuel than lines typed, a run that returns has left every
    menu loop. *)
Lemma navigate_ends (fuel : nat) (stack stack' : list menu) (st : state) :
  length (stdin st) < fuel ->
  value (navigate spawn terminal fuel stack st) = Return stack' ->
  stack' = [].
Proof.
  revert stack st. induction fuel as [|fuel IH]; intros stack st Hlen H; [lia|].
  destruct stack as [|m callers].
  - rewrite navigate_nil in H. now injection H as <-.
  - rewrite navigate_succ in H.
    apply bind_value_Return in H as (s & Hs & H).
    apply (IH s (final (step spawn terminal (m :: callers) st))); [|exact H].
    pose proof (step_reads_a_line m callers st s Hs). lia.
Qed.

(** X2.  [main] comes to an end on every input, in every world: run for
    one screen more than there are lines typed, it has exited with
    status 0, died of an uncaught exception or hangs in a child that
    never ends; it is never still in its menus.  (Every screen reads a
    line before it loops, and nothing gives lines back.) *)
Lemma main_ends (a : argv) (typed : list string) (stack : list menu) :
  snd (fst (main spawn terminal (S (length typed)) a typed))
  <> Still_running stack.
Proof.
  unfold main. cbn [fst snd].
  destruct (value (navigate spawn terminal (S (length typed)) [MainMenu]
                     (boot a typed))) as [s|e|] eqn:E; try discriminate.
  apply navigate_ends in E; [subst s; discriminate|].
  cbn. lia.
Qed.

End RunsEnd.

(** * The nested prompts of the log menu

    The journal and kernel-message entries of the log menu ask for a
    second choice without looping.  A "b" given there is no choice of
    theirs, so it is read and dropped; the next "b" leaves the log
    menu. *)

Section NestedPrompts.

Variable spawn : nat -> string -> process.
Variable terminal : nat -> string -> session.

Lemma nested_prompt_back (st : state) (key : string) (rest : list string) :
  key = "1" \/ key = "3" ->
  stdin st = "3" :: key :: "b" :: "b" :: rest ->
  let r := navigate spawn terminal 3 [MainMenu] st in
  value r = Return [MainMenu] /\
  final r = {| self := self st; stdin := rest; clock := clock st |}.
Proof.
  intros Hkey Hin. destruct st as [[host ns] inp clk]. cbn in Hin. subst inp.
  cbn [navigate step screen].
  unfold main_menu, log_menu, journalctl_menu, dmesg_logs, print_header,
    print_section.
  destruct Hkey as [-> | ->]; split; reflexivity.
Qed.

End NestedPrompts.

(** * Further properties of the gateway *)

(** X7.  A captured execution reports exit code 0 only for a child that
    completed within the budget with return code 0; its text is then the
    child's output as read in text mode (standard output, then standard
    error, line ends translated).  No failure is ever reported as
    success. *)
Theorem run_command_zero_means_success
  (spawn : string -> process) (cmd : string) (host : option string)
  (text : string) :
  run_command spawn cmd host = Return (0%Z, text) ->
  exists elapsed ws,
    spawn (captured_cmdline cmd host) = Exits elapsed 0 ws /\
    (elapsed <= budget)%Q /\
    text = translate_newlines (written Stdout ws)
             ++ translate_newlines (written Stderr ws).
Proof.
  unfold run_command, subprocess_run_captured.
  destruct (spawn (captured_cmdline cmd host)) as [t rc ws| |e].
  - destruct (Qle_bool t 60) eqn:E; cbn.
    + intros [= -> <-]. exists t, ws. split; [reflexivity|].
      split; [now apply Qle_bool_iff|reflexivity].
    + discriminate.
  - cbn. discriminate.
  - cbn. unfold is_Exception. destruct (class e); discriminate.
Qed.

Lemma run_command_zero_means_success_witness :
  exists elapsed ws,
    Exits 2 0 [(Stdout, "hi")] = Exits elapsed 0 ws /\
    (elapsed <= budget)%Q /\
    "hi" = translate_newlines (written Stdout ws)
             ++ translate_newlines (written Stderr ws).
Proof.
  apply (run_command_zero_means_success
           (fun _ => Exits 2 0 [(Stdout, "hi")]) "echo hi" None "hi").
  reflexivity.
Defined.

(** In a tame world a captured execution returns a pair. *)
Lemma run_command_returns (spawn : string -> process) (cmd : string)
  (host : option string) :
  ordinary (spawn (captured_cmdline cmd host)) ->
  exists r, run_command spawn cmd host = Return r.
Proof.
  unfold run_command, subprocess_run_captured, ordinary.
  destruct (spawn (captured_cmdline cmd host)) as [t rc ws| |e].
  - destruct (Qle_bool t 60); eexists; reflexivity.
  - eexists; reflexivity.
  - intros H. rewrite H. destruct (class e); eexists; reflexivity.
Qed.

(** * How a run of the console can end *)

Section Endings.

Variable spawn : nat -> string -> process.
Variable terminal : nat -> string -> session.
Hypothesis spawn_tame : tame_spawn spawn.
Hypothesis terminal_tame : tame_terminal terminal.

Lemma ends_well_ret {A} (a : A) : ends_well (ret a).
Proof. now intros st. Qed.

Lemma ends_well_bind {A B} (m : M A) (f : A -> M B) :
  ends_well m -> (forall a, ends_well (f a)) -> ends_well (bind m f).
Proof.
  intros Hm Hf st. specialize (Hm st). unfold bind.
  destruct (value (m st)) as [a|e|]; cbn [value]; [apply Hf|exact Hm|exact Hm].
Qed.

Lemma ends_well_print (s : string) : ends_well (print s).
Proof. now intros st. Qed.

Lemma ends_well_input (p : string) : ends_well (input p).
Proof. intros st. unfold input. now destruct (stdin st). Qed.

Lemma ends_well_get_namespace : ends_well get_namespace.
Proof. now intros st. Qed.

Lemma ends_well_get_remote_host : ends_well get_remote_host.
Proof. now intros st. Qed.

Lemma ends_well_set_namespace (ns : string) : ends_well (set_namespace ns).
Proof. now intros st. Qed.

Lemma ends_well_run_cmd (cmd : string) : ends_well (run_cmd spawn cmd).
Proof.
  intros st. cbn [run_cmd value].
  destruct (run_command_returns (spawn (clock st)) cmd (remote_host (self st)))
    as [r ->]; [apply spawn_tame|exact I].
Qed.

Lemma ends_well_run_interactive_cmd (cmd : string) :
  ends_well (run_interactive_cmd terminal cmd).
Proof.
  intros st. cbn [run_interactive_cmd value]. unfold run_interactive.
  pose proof (terminal_tame (clock st)
                (interactive_cmdline cmd (remote_host (self st)))) as H.
  destruct (terminal (clock st) (interactive_cmdline cmd (remote_host (self st))))
    as [n|n e|]; cbn; [exact I| |exact H].
  rewrite H. exact I.
Qed.

Lemma ends_well_for_each {A} (xs : list A) (body : A -> M unit) :
  (forall x, ends_well (body x)) -> ends_well (for_each xs body).
Proof.
  intros H. induction xs as [|x xs IH]; cbn [for_each].
  - apply ends_well_ret.
  - apply ends_well_bind; [apply H|intros _; exact IH].
Qed.

Ltac ends :=
  repeat (cbv beta zeta;
          match goal with
          | |- ends_well (bind _ _) => apply ends_well_bind; [|intros]
          | |- ends_well (for_each _ _) => apply ends_well_for_each; intros
          | |- ends_well (if ?b then _ else _) => destruct b
          | |- ends_well (match ?x with _ => _ end) => destruct x
          | |- ends_well (ret _) => apply ends_well_ret
          | |- ends_well (print _) => apply ends_well_print
          | |- ends_well (input _) => apply ends_well_input
          | |- ends_well get_namespace => apply ends_well_get_namespace
          | |- ends_well get_remote_host => apply ends_well_get_remote_host
          | |- ends_well (set_namespace _) => apply ends_well_set_namespace
          | |- ends_well (run_cmd _ _) => apply ends_well_run_cmd
          | |- ends_well (run_interactive_cmd _ _) =>
              apply ends_well_run_interactive_cmd
          end).

Lemma screen_ends_well (m : menu) : ends_well (screen spawn terminal m).
Proof.
  destruct m; cbn [screen];
    unfold main_menu, network_menu, process_menu, log_menu, resource_menu,
      k8s_menu;
    unfold_actions; unfold change_namespace; ends.
Qed.

Lemma navigate_ends_well (fuel : nat) (stack : list menu) :
  ends_well (navigate spawn terminal fuel stack).
Proof.
  revert stack. induction fuel as [|fuel IH]; intros [|m callers];
    cbn [navigate]; try apply ends_well_ret.
  apply ends_well_bind; [|exact IH].
  cbn [step]. apply ends_well_bind; [apply screen_ends_well|].
  intros c. apply ends_well_ret.
Qed.

End Endings.

(** X1.  In a tame world (no captured child raises outside [Exception],
    every interactive child ends or is interrupted by the operator) the
    console, given one screen more than there are lines typed, either
    exits with status 0 or dies of the [EOFError] of [input]: no
    diagnostic that fails, times out or is interrupted ends the console,
    only the end of the operator's input does. *)
Theorem console_quits_or_runs_out_of_input
  (spawn : nat -> string -> process) (terminal : nat -> string -> session)
  (a : argv) (typed : list string) :
  tame_spawn spawn -> tame_terminal terminal ->
  snd (fst (main spawn terminal (S (length typed)) a typed)) = Exited 0 \/
  exists e, snd (fst (main spawn terminal (S (length typed)) a typed)) = Uncaught e /\
            class e = EOFError.
Proof.
  intros Hs Ht. rewrite main_exit.
  pose proof (navigate_ends_well spawn terminal Hs Ht (S (length typed))
                [MainMenu] (boot a typed)) as H.
  destruct (value (navigate spawn terminal (S (length typed)) [MainMenu]
                     (boot a typed))) as [stack|e|] eqn:E.
  - left. apply navigate_ends in E; [now subst stack|]. cbn. lia.
  - right. exists e. split; [reflexivity|exact H].
  - destruct H.
Qed.

Lemma console_quits_or_runs_out_of_input_witness :
  snd (fst (main (fun _ _ => Exits 61 0 [])
                 (fun _ _ => Breaks 0 {| class := KeyboardInterrupt; str := "" |})
                 (S (length ["4"; "1"; "6"])) 
                 {| opt_remote := None; opt_namespace := None |}
                 ["4"; "1"; "6"]))
  = Exited 0 \/
  exists e,
    snd (fst (main (fun _ _ => Exits 61 0 [])
                   (fun _ _ => Breaks 0 {| class := KeyboardInterrupt; str := "" |})
                   (S (length ["4"; "1"; "6"]))
                   {| opt_remote := None; opt_namespace := None |}
                   ["4"; "1"; "6"]))
    = Uncaught e /\ class e = EOFError.
Proof.
  apply (console_quits_or_runs_out_of_input
           (fun _ _ => Exits 61 0 [])
           (fun _ _ => Breaks 0 {| class := KeyboardInterrupt; str := "" |})
           {| opt_remote := None; opt_namespace := None |} ["4"; "1"; "6"]).
  - intros n cmd. exact I.
  - intros n cmd. reflexivity.
Defined.

(** X3.  Whatever is typed, the menu loops that are running are none
    (after quit), the main menu alone, or one menu above the main menu:
    menus never nest deeper, and the main menu stays at the bottom until
    the console quits. *)
Theorem navigator_stack_shape
  (spawn : nat -> string -> process) (terminal : nat -> string -> session)
  (fuel : nat) (st : state) (stack : list menu) :
  value (navigate spawn terminal fuel [MainMenu] st) = Return stack ->
  stack = [] \/ stack = [MainMenu] \/
  exists m, m <> MainMenu /\ stack = [m; MainMenu].
Proof.
  intros H.
  apply (navigate_well_stacked spawn terminal fuel [MainMenu] stack st);
    [right; now left|exact H].
Qed.

Lemma navigator_stack_shape_witness :
  [K8sMenu; MainMenu] = [] \/ [K8sMenu; MainMenu] = [MainMenu] \/
  exists m, m <> MainMenu /\ [K8sMenu; MainMenu] = [m; MainMenu].
Proof.
  apply (navigator_stack_shape (fun _ _ => Exits 1 0 []) (fun _ _ => Ends 0) 4
           {| self := {| remote_host := None; namespace := "default" |};
              stdin := ["2"; "b"; "x"; "5"];
              clock := 0 |}).
  vm_compute. reflexivity.
Defined.

(** X4.  No screen and no action changes the remote target: it is the
    start-up value for the whole run. *)
Theorem remote_target_never_changes
  (spawn : nat -> string -> process) (terminal : nat -> string -> session)
  (fuel : nat) (a : argv) (typed : list string) :
  remote_host (self (snd (main spawn terminal fuel a typed))) = opt_remote a.
Proof.
  rewrite main_final.
  destruct (navigate_tracks spawn terminal fuel [MainMenu] (boot a typed))
    as [H _].
  exact H.
Qed.

(** * Where the commands go *)

Section Addressing.

Variable spawn : nat -> string -> process.
Variable terminal : nat -> string -> session.

Lemma addressed_nil (h : option string) : addressed_to h [].
Proof. intros ev []. Qed.

Lemma addressed_app (h : option string) (evs evs' : list event) :
  addressed_to h evs -> addressed_to h evs' -> addressed_to h (evs ++ evs').
Proof.
  intros H H' ev Hin.
  apply in_app_or in Hin as [Hin|Hin]; [now apply H|now apply H'].
Qed.

Lemma addresses_ret {A} (a : A) : addresses_target (ret a).
Proof. intros st. split; [apply addressed_nil|reflexivity]. Qed.

Lemma addresses_bind {A B} (m : M A) (f : A -> M B) :
  addresses_target m -> (forall a, addresses_target (f a)) ->
  addresses_target (bind m f).
Proof.
  intros Hm Hf st. destruct (Hm st) as [He Hh]. unfold bind.
  destruct (value (m st)) as [a|e|]; cbn [events final]; [|now split..].
  destruct (Hf a (final (m st))) as [He' Hh']. rewrite Hh in He'.
  split; [now apply addressed_app|congruence].
Qed.

Lemma addresses_print (s : string) : addresses_target (print s).
Proof.
  intros st. split; [|reflexivity]. intros ev [<-|[]]. exact I.
Qed.

Lemma addresses_input (p : string) : addresses_target (input p).
Proof.
  intros st. unfold input.
  destruct (stdin st); (split; [|reflexivity]); intros ev [<-|[]]; exact I.
Qed.

Lemma addresses_get_namespace : addresses_target get_namespace.
Proof. intros st. split; [apply addressed_nil|reflexivity]. Qed.

Lemma addresses_get_remote_host : addresses_target get_remote_host.
Proof. intros st. split; [apply addressed_nil|reflexivity]. Qed.

Lemma addresses_set_namespace (ns : string) : addresses_target (set_namespace ns).
Proof. intros st. split; [apply addressed_nil|reflexivity]. Qed.

Lemma addresses_run_cmd (cmd : string) : addresses_target (run_cmd spawn cmd).
Proof.
  intros st. split; [|reflexivity]. intros ev [<-|[]]. reflexivity.
Qed.

Lemma addresses_run_interactive_cmd (cmd : string) :
  addresses_target (run_interactive_cmd terminal cmd).
Proof.
  intros st. split; [|reflexivity]. intros ev [<-|[]]. reflexivity.
Qed.

Lemma addresses_for_each {A} (xs : list A) (body : A -> M unit) :
  (forall x, addresses_target (body x)) -> addresses_target (for_each xs body).
Proof.
  intros H. induction xs as [|x xs IH]; cbn [for_each].
  - apply addresses_ret.
  - apply addresses_bind; [apply H|intros _; exact IH].
Qed.

Ltac addresses :=
  repeat (cbv beta zeta;
          match goal with
          | |- addresses_target (bind _ _) => apply addresses_bind; [|intros]
          | |- addresses_target (for_each _ _) => apply addresses_for_each; intros
          | |- addresses_target (if ?b then _ else _) => destruct b
          | |- addresses_target (match ?x with _ => _ end) => destruct x
          | |- addresses_target (ret _) => apply addresses_ret
          | |- addresses_target (print _) => apply addresses_print
          | |- addresses_target (input _) => apply addresses_input
          | |- addresses_target get_namespace => apply addresses_get_namespace
          | |- addresses_target get_remote_host => apply addresses_get_remote_host
          | |- addresses_target (set_namespace _) => apply addresses_set_namespace
          | |- addresses_target (run_cmd _ _) => apply addresses_run_cmd
          | |- addresses_target (run_interactive_cmd _ _) =>
              apply addresses_run_interactive_cmd
          end).

Lemma screen_addresses (m : menu) : addresses_target (screen spawn terminal m).
Proof.
  destruct m; cbn [screen];
    unfold main_menu, network_menu, process_menu, log_menu, resource_menu,
      k8s_menu;
    unfold_actions; unfold change_namespace; addresses.
Qed.

Lemma navigate_addresses (fuel : nat) (stack : list menu) :
  addresses_target (navigate spawn terminal fuel stack).
Proof.
  revert stack. induction fuel as [|fuel IH]; intros [|m callers];
    cbn [navigate]; try apply addresses_ret.
  apply addresses_bind; [|exact IH].
  cbn [step]. apply addresses_bind; [apply screen_addresses|].
  intros c. apply addresses_ret.
Qed.

End Addressing.

(** X5.  Every command of a run, captured or interactive, is handed to
    the gateway with the remote target given at start-up: no diagnostic
    is ever sent to another host, or run locally once a target is set. *)
Theorem commands_go_to_the_startup_target
  (spawn : nat -> string -> process) (terminal : nat -> string -> session)
  (fuel : nat) (a : argv) (typed : list string) :
  addressed_to (opt_remote a) (fst (fst (main spawn terminal fuel a typed))).
Proof.
  change (fst (fst (main spawn terminal fuel a typed)))
    with (events (navigate spawn terminal fuel [MainMenu] (boot a typed))).
  exact (proj1 (navigate_addresses spawn terminal fuel [MainMenu] (boot a typed))).
Qed.

(** * Lines the menus do not act on *)

(** X6.  A line that is no choice of the menu shown (after stripping; an
    empty line, "q" in a menu other than the main one, "b" in the main
    menu, ...) is read and dropped: the same menu is shown again, the
    session is unchanged and no command is run. *)
Theorem unrecognised_choice_is_ignored
  (spawn : nat -> string -> process) (terminal : nat -> string -> session)
  (m : menu) (st : state) (line : string) (rest : list string) :
  stdin st = line :: rest ->
  recognised m (Py.strip line) = false ->
  value (screen spawn terminal m st) = Return Continue /\
  final (screen spawn terminal m st)
  = {| self := self st; stdin := rest; clock := clock st |} /\
  commands (events (screen spawn terminal m st)) = [].
Proof.
  intros Hin Hrec. destruct st as [[host ns] inp clk]. cbn in Hin. subst inp.
  destruct m; cbn [recognised] in Hrec;
    repeat (apply orb_false_iff in Hrec as [Hrec ?]);
    cbn [screen];
    unfold main_menu, network_menu, process_menu, log_menu, resource_menu,
      k8s_menu, print_section, print_header;
    run_screen;
    repeat match goal with
           | H : String.eqb _ _ = false |- _ => rewrite H; clear H
           end;
    repeat split.
Qed.

Lemma unrecognised_choice_is_ignored_witness :
  value (screen (fun _ _ => Exits 1 0 []) (fun _ _ => Ends 0) ProcessMenu
           {| self := {| remote_host := None; namespace := "default" |};
              stdin := [" q "; "b"];
              clock := 0 |})
  = Return Continue.
Proof.
  refine (proj1 (unrecognised_choice_is_ignored
                   (fun _ _ => Exits 1 0 []) (fun _ _ => Ends 0) ProcessMenu
                   {| self := {| remote_host := None; namespace := "default" |};
                      stdin := [" q "; "b"];
                      clock := 0 |} " q " ["b"] eq_refl _)).
  vm_compute. reflexivity.
Defined.

(** * The port scan *)

(** The next statement of a method that captures, by its equation. *)
Ltac bind_step spawn :=
  match goal with
  | |- context [bind (bind ?m ?f) ?g ?st] => rewrite (bind_assoc m f g st)
  | |- context [bind (print ?s) ?f ?st] => rewrite (print_bind s f st)
  | |- context [bind (input ?p) ?f ?st] => rewrite (input_bind p f st)
  | |- context [bind (run_cmd _ ?c) ?f ?st] => rewrite (run_cmd_bind spawn c f st)
  end.

Section PortScan.

Variable spawn : nat -> string -> process.
Hypothesis spawn_tame : tame_spawn spawn.

(** The loop over a port list, from any state. *)
Lemma port_loop_report (target : string) (ports : list string) (st : state) :
  scan_report target (remote_host (self st)) ports
    (events
       (for_each ports
          (fun port =>
             let port := Py.strip port in
             '(code, output) <- run_cmd spawn ("nc -zv -w2 " ++ target ++ " "
                                                 ++ port ++ " 2>&1") ;;
             let status := if Z.eqb code 0
                           then colored "OPEN" Colors.GREEN
                           else colored "CLOSED" Colors.RED in
             print ("  Port " ++ port ++ ": " ++ status))
          st)).
Proof.
  revert st. induction ports as [|port ports IH]; intros st; cbn [for_each].
  - constructor.
  - cbv beta zeta. bind_step spawn. bind_step spawn. cbv zeta.
    destruct (run_command_returns (spawn (clock st))
                ("nc -zv -w2 " ++ target ++ " " ++ Py.strip port ++ " 2>&1")
                (remote_host (self st))) as [[code output] ->];
      [apply spawn_tame|].
    bind_step spawn. rewrite !emit_events. cbn [app].
    apply (scan_port target (remote_host (self st)) port ports code output).
    apply (IH {| self := self st; stdin := stdin st; clock := S (clock st) |}).
Qed.

End PortScan.

(** X9.  Given a port list without "-", [port_scan] probes every
    comma-separated entry once, in the order typed, with
    [nc -zv -w2 TARGET PORT 2>&1], and after each probe prints one line
    that says OPEN exactly when the probe exited with code 0 and CLOSED
    otherwise; the text of the probe is not shown. *)
Theorem port_list_is_probed_in_order
  (spawn : nat -> string -> process)
  (st : state) (target ports : string) (rest : list string) :
  tame_spawn spawn ->
  stdin st = target :: ports :: rest ->
  Py.contains "-" (Py.strip ports) = false ->
  exists evs,
    events (port_scan spawn st)
    = Prompt "Target host: " (Some target)
      :: Prompt "Ports (comma-separated or range, e.g., 22,80,443 or 1-1000): "
                (Some ports)
      :: evs /\
    scan_report (Py.strip target) (remote_host (self st))
                (Py.split "," (Py.strip ports)) evs.
Proof.
  intros Htame Hin Hlist. destruct st as [[host ns] inp clk]. cbn in Hin.
  subst inp. unfold port_scan.
  bind_step spawn. cbn [stdin self clock]. cbv zeta.
  rewrite emit_events. bind_step spawn. cbn [stdin self clock]. cbv zeta.
  rewrite emit_events, Hlist. cbn [app].
  eexists. split; [reflexivity|].
  apply (port_loop_report spawn Htame (Py.strip target)
           (Py.split "," (Py.strip ports))
           {| self := {| remote_host := host; namespace := ns |};
              stdin := rest; clock := clk |}).
Qed.

Lemma port_list_is_probed_in_order_witness :
  exists evs,
    events (port_scan (fun n _ => Exits 1 (Z.of_nat n) [])
              {| self := {| remote_host := None; namespace := "default" |};
                 stdin := ["db1"; "22, 80"];
                 clock := 0 |})
    = Prompt "Target host: " (Some "db1")
      :: Prompt "Ports (comma-separated or range, e.g., 22,80,443 or 1-1000): "
                (Some "22, 80")
      :: evs /\
    scan_report (Py.strip "db1") None (Py.split "," (Py.strip "22, 80")) evs.
Proof.
  apply (port_list_is_probed_in_order (fun n _ => Exits 1 (Z.of_nat n) [])
           {| self := {| remote_host := None; namespace := "default" |};
              stdin := ["db1"; "22, 80"];
              clock := 0 |} "db1" "22, 80" []).
  - intros n cmd. exact I.
  - reflexivity.
  - vm_compute. reflexivity.
Defined.

(** X8.  Given a port range (an answer that contains "-"), [port_scan]
    runs a single [nmap] command and prints nothing but the notice
    "Scanning port range...": whatever [nmap] answers is captured and
    never shown. *)
Theorem port_range_result_is_not_shown
  (spawn : nat -> string -> process)
  (st : state) (target ports : string) (rest : list string) :
  stdin st = target :: ports :: rest ->
  Py.contains "-" (Py.strip ports) = true ->
  commands (events (port_scan spawn st))
  = ["nmap -p " ++ Py.strip ports ++ " " ++ Py.strip target
       ++ " 2>/dev/null || echo 'nmap not installed'"] /\
  prints (events (port_scan spawn st)) = ["Scanning port range..."].
Proof.
  intros Hin Hrange. destruct st as [[host ns] inp clk]. cbn in Hin.
  subst inp. unfold port_scan.
  bind_step spawn. cbn [stdin self clock]. cbv zeta.
  rewrite emit_events. bind_step spawn. cbn [stdin self clock]. cbv zeta.
  rewrite emit_events, Hrange. bind_step spawn. rewrite emit_events.
  bind_step spawn. cbv zeta.
  destruct (run_command _ _ _) as [[code output]|e|]; split; reflexivity.
Qed.

Lemma port_range_result_is_not_shown_witness :
  prints (events (port_scan (fun _ _ => Exits 3 0 [(Stdout, "22/tcp open ssh")])
                    {| self := {| remote_host := None; namespace := "default" |};
                       stdin := ["db1"; "1-1000"];
                       clock := 0 |}))
  = ["Scanning port range..."].
Proof.
  refine (proj2 (port_range_result_is_not_shown
                   (fun _ _ => Exits 3 0 [(Stdout, "22/tcp open ssh")])
                   {| self := {| remote_host := None; namespace := "default" |};
                      stdin := ["db1"; "1-1000"];
                      clock := 0 |} "db1" "1-1000" [] eq_refl _)).
  vm_compute. reflexivity.
Defined.

(** * The fields of /proc/meminfo *)








(** * Answers left blank and choices not offered *)

Ltac blank :=
  repeat match goal with
         | H : Py.strip _ = "" |- _ => rewrite H in *; clear H
         end.

(** X12.  A prompt that announces a default takes it when the answer is
    blank: ping sends 5 probes, tcpdump listens on [any] for 10 seconds
    with no port filter, strace traces for 5 seconds, the log search
    goes back 1 hour, exec starts [/bin/sh] and describe describes a
    [pod]; the other answers are used as typed, stripped. *)
Theorem blank_answers_take_defaults
  (spawn : nat -> string -> process) (terminal : nat -> string -> session)
  (st : state) :
  (forall target count rest,
      stdin st = target :: count :: rest -> Py.strip count = "" ->
      commands (events (ping_test spawn st)) = ["ping -c 5 " ++ Py.strip target]) /\
  (forall interface port duration rest,
      stdin st = interface :: port :: duration :: rest ->
      Py.strip interface = "" -> Py.strip port = "" -> Py.strip duration = "" ->
      commands (events (tcpdump_capture terminal st))
      = ["timeout 10 tcpdump -i any  -nn 2>/dev/null || echo 'tcpdump requires root'"]) /\
  (forall pid duration rest,
      stdin st = pid :: duration :: rest -> Py.strip duration = "" ->
      commands (events (strace_process terminal st))
      = ["timeout 5 strace -p " ++ Py.strip pid ++ " 2>&1 | head -100"]) /\
  (forall pattern since rest,
      stdin st = pattern :: since :: rest -> Py.strip since = "" ->
      commands (events (search_logs spawn st))
      = ["journalctl --since '1 hour ago' --no-pager | grep -i '"
           ++ Py.strip pattern ++ "' | tail -100"]) /\
  (forall pod shell rest,
      stdin st = pod :: shell :: rest -> Py.strip shell = "" ->
      commands (events (k8s_exec terminal st))
      = ["kubectl exec -it " ++ Py.strip pod ++ " -n " ++ namespace (self st)
           ++ " -- /bin/sh"]) /\
  (forall resource name rest,
      stdin st = resource :: name :: rest -> Py.strip resource = "" ->
      commands (events (k8s_describe terminal st))
      = ["kubectl describe pod " ++ Py.strip name ++ " -n " ++ namespace (self st)
           ++ " | less"]).
Proof.
  destruct st as [[host ns] inp clk]. cbn [stdin self namespace].
  repeat split; intros; subst inp;
    unfold ping_test, tcpdump_capture, strace_process, search_logs, k8s_exec,
      k8s_describe;
    exec spawn terminal; cbn [run_interactive_cmd events];
    blank; try discriminate; reflexivity.
Qed.

Lemma blank_answers_take_defaults_witness :
  commands (events (ping_test (fun _ _ => Exits 5 0 [(Stdout, "5 packets transmitted")])
                      {| self := {| remote_host := None; namespace := "default" |};
                         stdin := [" 10.0.0.1"; "  "];
                         clock := 0 |}))
  = ["ping -c 5 " ++ Py.strip " 10.0.0.1"].
Proof.
  refine (proj1 (blank_answers_take_defaults
                   (fun _ _ => Exits 5 0 [(Stdout, "5 packets transmitted")])
                   (fun _ _ => Ends 0)
                   {| self := {| remote_host := None; namespace := "default" |};
                      stdin := [" 10.0.0.1"; "  "];
                      clock := 0 |})
                " 10.0.0.1" "  " [] eq_refl _).
  vm_compute. reflexivity.
Defined.

(** X13.  The second-level prompts act only on the choices they list: on
    any other answer the kernel-message prompt (choices 1 to 3) and the
    journal prompt (choices 1 to 5) run no command and return to the log
    menu, having read that one line. *)
Theorem unlisted_nested_choice_runs_nothing
  (spawn : nat -> string -> process) (terminal : nat -> string -> session)
  (st : state) (choice : string) (rest : list string) :
  stdin st = choice :: rest ->
  Py.strip choice <> "1" -> Py.strip choice <> "2" -> Py.strip choice <> "3" ->
  (value (dmesg_logs spawn st) = Return tt /\
   commands (events (dmesg_logs spawn st)) = [] /\
   final (dmesg_logs spawn st)
   = {| self := self st; stdin := rest; clock := clock st |}) /\
  (Py.strip choice <> "4" -> Py.strip choice <> "5" ->
   value (journalctl_menu terminal st) = Return tt /\
   commands (events (journalctl_menu terminal st)) = [] /\
   final (journalctl_menu terminal st)
   = {| self := self st; stdin := rest; clock := clock st |}).
Proof.
  intros Hin H1 H2 H3. destruct st as [[host ns] inp clk]. cbn in Hin.
  subst inp.
  apply String.eqb_neq in H1, H2, H3.
  split; [|intros H4 H5; apply String.eqb_neq in H4, H5];
    unfold dmesg_logs, journalctl_menu; run_screen;
    repeat match goal with
           | H : String.eqb _ _ = false |- _ => rewrite H; clear H
           end;
    repeat split.
Qed.

Lemma unlisted_nested_choice_runs_nothing_witness :
  commands (events (dmesg_logs (fun _ _ => Exits 1 0 [])
                      {| self := {| remote_host := None; namespace := "default" |};
                         stdin := ["b"; "b"];
                         clock := 0 |}))
  = [].
Proof.
  refine (proj1 (proj2 (proj1
            (unlisted_nested_choice_runs_nothing
               (fun _ _ => Exits 1 0 []) (fun _ _ => Ends 0)
               {| self := {| remote_host := None; namespace := "default" |};
                  stdin := ["b"; "b"];
                  clock := 0 |} "b" ["b"] eq_refl _ _ _))));
    vm_compute; discriminate.
Defined.

(** * Captured or interactive *)

Section Emission.

Variable Q : list event -> Prop.
Hypothesis Q_nil : Q [].
Hypothesis Q_app : forall evs evs', Q evs -> Q evs' -> Q (evs ++ evs').
Hypothesis Q_print : forall s, Q [Print s].
Hypothesis Q_prompt : forall p answer, Q [Prompt p answer].

Lemma emits_ret {A} (a : A) : emits Q (ret a).
Proof. intros st. exact Q_nil. Qed.

Lemma emits_bind {A B} (m : M A) (f : A -> M B) :
  emits Q m -> (forall a, emits Q (f a)) -> emits Q (bind m f).
Proof.
  intros Hm Hf st. specialize (Hm st). unfold bind.
  destruct (value (m st)) as [a|e|]; cbn [events]; [|exact Hm..].
  apply Q_app; [exact Hm|apply Hf].
Qed.

Lemma emits_print (s : string) : emits Q (print s).
Proof. intros st. apply Q_print. Qed.

Lemma emits_input (p : string) : emits Q (input p).
Proof. intros st. unfold input. destruct (stdin st); apply Q_prompt. Qed.

Lemma emits_get_namespace : emits Q get_namespace.
Proof. intros st. exact Q_nil. Qed.

Lemma emits_set_namespace (ns : string) : emits Q (set_namespace ns).
Proof. intros st. exact Q_nil. Qed.

Lemma emits_for_each {A} (xs : list A) (body : A -> M unit) :
  (forall x, emits Q (body x)) -> emits Q (for_each xs body).
Proof.
  intros H. induction xs as [|x xs IH]; cbn [for_each].
  - apply emits_ret.
  - apply emits_bind; [apply H|intros _; exact IH].
Qed.

End Emission.

Lemma no_interactive_app (evs evs' : list event) :
  no_interactive evs -> no_interactive evs' -> no_interactive (evs ++ evs').
Proof.
  intros H H' cmd host Hin.
  apply in_app_or in Hin as [Hin|Hin]; [now apply (H cmd host)|now apply (H' cmd host)].
Qed.

Lemma no_captured_app (evs evs' : list event) :
  no_captured evs -> no_captured evs' -> no_captured (evs ++ evs').
Proof.
  intros H H' cmd host r Hin.
  apply in_app_or in Hin as [Hin|Hin];
    [now apply (H cmd host r)|now apply (H' cmd host r)].
Qed.

Lemma no_interactive_one (ev : event) :
  (forall cmd host, ev <> Interactive cmd host) -> no_interactive [ev].
Proof. intros H cmd host [Hin|[]]. now apply (H cmd host). Qed.

Lemma no_captured_one (ev : event) :
  (forall cmd host r, ev <> Captured cmd host r) -> no_captured [ev].
Proof. intros H cmd host r [Hin|[]]. now apply (H cmd host r). Qed.

Lemma run_cmd_no_interactive (spawn : nat -> string -> process) (cmd : string) :
  emits no_interactive (run_cmd spawn cmd).
Proof. intros st. apply no_interactive_one. discriminate. Qed.

Lemma run_interactive_cmd_no_captured
  (terminal : nat -> string -> session) (cmd : string) :
  emits no_captured (run_interactive_cmd terminal cmd).
Proof. intros st. apply no_captured_one. discriminate. Qed.

Lemma no_interactive_nil : no_interactive [].
Proof. intros cmd host []. Qed.

Lemma no_captured_nil : no_captured [].
Proof. intros cmd host r []. Qed.

Lemma no_interactive_print (s : string) : no_interactive [Print s].
Proof. apply no_interactive_one. discriminate. Qed.

Lemma no_interactive_prompt (p : string) (answer : option string) :
  no_interactive [Prompt p answer].
Proof. apply no_interactive_one. discriminate. Qed.

Lemma no_captured_print (s : string) : no_captured [Print s].
Proof. apply no_captured_one. discriminate. Qed.

Lemma no_captured_prompt (p : string) (answer : option string) :
  no_captured [Prompt p answer].
Proof. apply no_captured_one. discriminate. Qed.

(** Decomposes a method along its statements, for either property. *)
Ltac emission Qnil Qapp Qprint Qprompt :=
  repeat (cbv beta zeta;
          match goal with
          | |- emits _ (bind _ _) => apply emits_bind; [exact Qapp| |intros]
          | |- emits _ (for_each _ _) =>
              apply emits_for_each; [exact Qnil|exact Qapp|intros]
          | |- emits _ (if ?b then _ else _) => destruct b
          | |- emits _ (match ?x with _ => _ end) => destruct x
          | |- emits _ (ret _) => apply emits_ret; exact Qnil
          | |- emits _ (print _) => apply emits_print; exact Qprint
          | |- emits _ (input _) => apply emits_input; exact Qprompt
          | |- emits _ get_namespace => apply emits_get_namespace; exact Qnil
          | |- emits no_interactive (run_cmd _ _) => apply run_cmd_no_interactive
          | |- emits no_captured (run_interactive_cmd _ _) =>
              apply run_interactive_cmd_no_captured
          end).

(** X14.  Each action runs its commands in one mode, pod logs apart:
    traceroute, tcpdump, strace, the journal prompt, top, iotop and the
    exec, describe and port-forward actions only ever hand over the
    terminal, and every other action only ever captures.  (Pod logs list
    the pods by a captured command and may then follow the log
    interactively.) *)
Theorem one_mode_per_action
  (spawn : nat -> string -> process) (terminal : nat -> string -> session)
  (a : leaf) (st : state) :
  (In a interactive_actions ->
   no_captured (events (invoke spawn terminal a st))) /\
  (~ In a interactive_actions -> a <> K8sLogs ->
   no_interactive (events (invoke spawn terminal a st))).
Proof.
  split.
  - intros Ha. revert st. change (emits no_captured (invoke spawn terminal a)).
    cbn in Ha.
    repeat (destruct Ha as [<-|Ha]; [|]); try destruct Ha;
      cbn [invoke]; unfold_actions;
      emission no_captured_nil no_captured_app no_captured_print
               no_captured_prompt.
  - intros Ha Hlogs. revert st.
    change (emits no_interactive (invoke spawn terminal a)).
    destruct a; try (now elim Hlogs); try (elim Ha; cbn; tauto);
      cbn [invoke]; unfold_actions; unfold change_namespace;
      emission no_interactive_nil no_interactive_app no_interactive_print
               no_interactive_prompt;
      apply emits_set_namespace; exact no_interactive_nil.
Qed.

Lemma one_mode_per_action_witness :
  no_captured
    (events (invoke (fun _ _ => Exits 1 0 []) (fun _ _ => Ends 1) K8sExec
               {| self := {| remote_host := Some "bastion"; namespace := "default" |};
                  stdin := ["web-0"; ""; "exit"];
                  clock := 0 |})).
Proof.
  apply (proj1 (one_mode_per_action
                  (fun _ _ => Exits 1 0 []) (fun _ _ => Ends 1) K8sExec
                  {| self := {| remote_host := Some "bastion"; namespace := "default" |};
                     stdin := ["web-0"; ""; "exit"];
                     clock := 0 |})).
  cbn. tauto.
Defined.

(** * What the main menu says about the target *)

(** X15.  The "Target:" line of the main menu agrees with the gateway:
    with a non-empty remote host the menu names that host and commands
    are wrapped in [ssh] to it; otherwise (no host, or an empty one) the
    menu says "localhost" and commands go to the local shell unchanged. *)
Theorem target_line_matches_gateway (st : state) :
  (target_set (remote_host (self st)) = true ->
   exists h, remote_host (self st) = Some h /\
     In (Print ("  Target: " ++ h)) (events (main_menu st)) /\
     forall cmd,
       captured_cmdline cmd (remote_host (self st))
       = "ssh -o ConnectTimeout=10 -o BatchMode=yes " ++ h ++ " '" ++ cmd ++ "'" /\
       interactive_cmdline cmd (remote_host (self st))
       = "ssh -t " ++ h ++ " '" ++ cmd ++ "'") /\
  (target_set (remote_host (self st)) = false ->
   In (Print "  Target: localhost") (events (main_menu st)) /\
   forall cmd,
     captured_cmdline cmd (remote_host (self st)) = cmd /\
     interactive_cmdline cmd (remote_host (self st)) = cmd).
Proof.
  destruct st as [[host ns] inp clk]. cbn [self remote_host].
  unfold target_set, captured_cmdline, interactive_cmdline, main_menu,
    print_header.
  run_screen.
  destruct host as [[|c h]|]; cbn [Py.truthy_opt Py.truthy Py.format_opt];
    (split; [intros H; try discriminate H|intros H; try discriminate H]).
  - split; [|intros cmd; split; reflexivity].
    cbn [In]. do 5 right. left. reflexivity.
  - exists (String c h). split; [reflexivity|].
    split; [|intros cmd; split; reflexivity].
    cbn [In]. do 5 right. left. reflexivity.
  - split; [|intros cmd; split; reflexivity].
    cbn [In]. do 5 right. left. reflexivity.
Qed.

Lemma target_line_matches_gateway_witness :
  In (Print "  Target: localhost")
     (events (main_menu {| self := {| remote_host := Some ""; namespace := "default" |};
                           stdin := ["q"];
                           clock := 0 |})).
Proof.
  apply (proj2 (target_line_matches_gateway
                  {| self := {| remote_host := Some ""; namespace := "default" |};
                     stdin := ["q"];
                     clock := 0 |})).
  reflexivity.
Defined.

(** * A failure of an interactive command *)

Lemma main_menu_opens_resource (st : state) (line : string) (rest : list string) :
  stdin st = line :: rest -> Py.strip line = "4" ->
  value (main_menu st) = Return (Call ResourceMenu) /\
  final (main_menu st) = {| self := self st; stdin := rest; clock := clock st |}.
Proof.
  intros Hin H4. destruct st as [[host ns] inp clk]. cbn in Hin. subst inp.
  unfold main_menu, print_header. run_screen. rewrite H4. split; reflexivity.
Qed.

Lemma resource_menu_top_fails
  (spawn : nat -> string -> process) (terminal : nat -> string -> session)
  (st : state) (line : string) (rest : list string) (consumed : nat) (e : exn) :
  stdin st = line :: rest -> Py.strip line = "1" ->
  terminal (clock st) (interactive_cmdline "top" (remote_host (self st)))
  = Breaks consumed e ->
  class e <> KeyboardInterrupt ->
  value (resource_menu spawn terminal st) = Raise e.
Proof.
  intros Hin H1 Hbreak Hclass. destruct st as [[host ns] inp clk].
  cbn in Hin, Hbreak. subst inp.
  unfold resource_menu, print_section. run_screen. rewrite H1.
  cbn [String.eqb Ascii.eqb Bool.eqb].
  rewrite run_interactive_cmd_bind. cbv zeta.
  cbn [self remote_host clock]. unfold run_interactive. rewrite Hbreak.
  destruct (class e); try reflexivity. now elim Hclass.
Qed.

(** X16.  Interactive execution folds nothing but the operator's
    interrupt: when the call that runs [top] (resource menu, entry 1)
    raises any other exception, the exception is not caught anywhere and
    the console dies of it. *)
Theorem interactive_failure_ends_console
  (spawn : nat -> string -> process) (terminal : nat -> string -> session)
  (fuel : nat) (a : argv) (first second : string) (rest : list string)
  (consumed : nat) (e : exn) :
  Py.strip first = "4" -> Py.strip second = "1" ->
  terminal 0 (interactive_cmdline "top" (opt_remote a)) = Breaks consumed e ->
  class e <> KeyboardInterrupt ->
  snd (fst (main spawn terminal (S (S fuel)) a (first :: second :: rest)))
  = Uncaught e.
Proof.
  intros H4 H1 Hbreak Hclass. rewrite main_exit.
  destruct (main_menu_opens_resource (boot a (first :: second :: rest))
              first (second :: rest) eq_refl H4) as [Hv Hf].
  destruct (step_value spawn terminal MainMenu [] _ _ Hv) as [Hsv Hsf].
  change (screen spawn terminal MainMenu) with main_menu in Hsf.
  rewrite navigate_succ, (bind_Return _ _ _ _ Hsv), Hsf, Hf.
  rewrite emit_value, navigate_succ.
  assert (Hr : value (screen spawn terminal ResourceMenu
                        {| self := self (boot a (first :: second :: rest));
                           stdin := second :: rest;
                           clock := clock (boot a (first :: second :: rest)) |})
               = Raise e).
  { apply (resource_menu_top_fails spawn terminal _ second rest consumed e);
      [reflexivity|exact H1|exact Hbreak|exact Hclass]. }
  unfold bind at 1. rewrite step_cons. unfold bind at 1. rewrite Hr.
  reflexivity.
Qed.

Lemma interactive_failure_ends_console_witness :
  snd (fst (main (fun _ _ => Exits 1 0 [])
                 (fun _ _ => Breaks 0 {| class := OtherException;
                                         str := "[Errno 12] Cannot allocate memory" |})
                 2 {| opt_remote := None; opt_namespace := None |}
                 ["4"; "1"; "q"]))
  = Uncaught {| class := OtherException; str := "[Errno 12] Cannot allocate memory" |}.
Proof.
  apply (interactive_failure_ends_console
           (fun _ _ => Exits 1 0 [])
           (fun _ _ => Breaks 0 {| class := OtherException;
                                   str := "[Errno 12] Cannot allocate memory" |})
           0 {| opt_remote := None; opt_namespace := None |} "4" "1" ["q"] 0).
  - reflexivity.
  - reflexivity.
  - reflexivity.
  - discriminate.
Defined.
